(** * Phone-number lookup aggregator: values, providers, merge and cache

    A shallow embedding of [m.py] (telegram_multi_lookup): the three provider
    wrappers, the body of [aggregate_lookups] (fan-out, then merge), the
    [@cached(lookup_cache)] memoisation around it and the validation gate of
    [num_handler].

    Conventions.
    - A Python [str] is a Rocq [string]; one [ascii] is one code point in the
      range U+0000..U+00FF.
    - A JSON / Python value is a [pyval]; a Python [dict] with string keys is
      an association list in insertion order.
    - Exceptions are instances of subclasses of [Exception] (what
      [except Exception] catches); interpreter signals such as
      KeyboardInterrupt are not part of the model.
    - Logging has no effect on any modelled state and is left out. *)

From Stdlib Require Import String Ascii List ZArith NArith Bool Lia DecimalString.
Import ListNotations.
Local Open Scope string_scope.
Local Open Scope Z_scope.

Set Warnings "-register-all".

(** ** Python values *)

Inductive pyfloat : Type :=
| FFinite (mantissa exponent : Z)     (* mantissa * 10^exponent *)
| FInf (negative : bool)
| FNaN.

Inductive pyval : Type :=
| PyNone
| PyBool (b : bool)
| PyInt (z : Z)
| PyFloat (f : pyfloat)
| PyStr (s : string)
| PyList (l : list pyval)
| PyDict (d : list (string * pyval)).

Definition dict : Type := list (string * pyval).

(** [bool(v)]: Python truthiness. *)
Definition truthy (v : pyval) : bool :=
  match v with
  | PyNone => false
  | PyBool b => b
  | PyInt z => negb (z =? 0)
  | PyFloat (FFinite m _) => negb (m =? 0)
  | PyFloat _ => true
  | PyStr s => negb (String.eqb s "")
  | PyList l => match l with [] => false | _ => true end
  | PyDict d => match d with [] => false | _ => true end
  end.

(** [a or b] on already evaluated operands. *)
Definition py_or (a b : pyval) : pyval := if truthy a then a else b.

(** [type(v).__name__] *)
Definition py_typename (v : pyval) : string :=
  match v with
  | PyNone => "NoneType"
  | PyBool _ => "bool"
  | PyInt _ => "int"
  | PyFloat _ => "float"
  | PyStr _ => "str"
  | PyList _ => "list"
  | PyDict _ => "dict"
  end.

(** ** Dictionaries *)

Fixpoint dict_find (d : dict) (k : string) : option pyval :=
  match d with
  | [] => None
  | (k', v) :: d' => if String.eqb k k' then Some v else dict_find d' k
  end.

(** [d.get(k)] *)
Definition dict_get (d : dict) (k : string) : pyval :=
  match dict_find d k with Some v => v | None => PyNone end.

(** [d[k] = v]: an existing key keeps its position, a new key goes last. *)
Fixpoint dict_set (d : dict) (k : string) (v : pyval) : dict :=
  match d with
  | [] => [(k, v)]
  | (k', v') :: d' =>
      if String.eqb k k' then (k', v) :: d' else (k', v') :: dict_set d' k v
  end.

Definition dict_keys (d : dict) : list string := map fst d.

(** ** Exceptions and outcomes *)

Record exn : Type := mkExn { exn_class : string; exn_msg : string }.

(** [str(e)] *)
Definition str_exn (e : exn) : string := exn_msg e.

Inductive outcome (A : Type) : Type :=
| Ok (a : A)
| Raise (e : exn).
Arguments Ok {A} a.
Arguments Raise {A} e.

Definition obind {A B} (m : outcome A) (k : A -> outcome B) : outcome B :=
  match m with
  | Ok a => k a
  | Raise e => Raise e
  end.

Declare Scope outcome_scope.
Delimit Scope outcome_scope with outcome.
Notation "'let?' x ':=' m 'in' k" := (obind m (fun x => k))
  (at level 10, x name, m at level 100, k at level 200) : outcome_scope.
Local Open Scope outcome_scope.

Definition AttributeError (v : pyval) (attr : string) : exn :=
  mkExn "AttributeError"
        ("'" ++ py_typename v ++ "' object has no attribute '" ++ attr ++ "'").

Definition KeyError (k : string) : exn := mkExn "KeyError" ("'" ++ k ++ "'").

Definition TypeError (msg : string) : exn := mkExn "TypeError" msg.

(** [o.get(k)] on an arbitrary value: only a dict has the method. *)
Definition py_get (o : pyval) (k : string) : outcome pyval :=
  match o with
  | PyDict d => Ok (dict_get d k)
  | _ => Raise (AttributeError o "get")
  end.

(** [d[k]] *)
Definition dict_item (d : dict) (k : string) : outcome pyval :=
  match dict_find d k with
  | Some v => Ok v
  | None => Raise (KeyError k)
  end.

(** [data[k] = v] on the value returned by [r.json()]: item assignment with a
    string key succeeds on a dict and is a TypeError on anything else. *)
Definition py_setitem (o : pyval) (k : string) (v : pyval) : outcome dict :=
  match o with
  | PyDict d => Ok (dict_set d k v)
  | PyList _ => Raise (TypeError "list indices must be integers or slices, not str")
  | _ => Raise (TypeError ("'" ++ py_typename o ++
                           "' object does not support item assignment"))
  end.

(** ** The merge step of [aggregate_lookups] (lines 122-168) *)

(** The dict literal bound to [merged]. *)
Definition initial_merged (number : string) (results : dict) : dict :=
  [ ("queried_number", PyStr number);
    ("providers", PyDict results);
    ("international_format", PyNone);
    ("valid", PyNone);
    ("country_name", PyNone);
    ("country_code", PyNone);
    ("location", PyNone);
    ("carrier", PyNone);
    ("line_type", PyNone);
    ("caller_name", PyNone) ].

(** [merged[k] = v or merged[k]], with [v] already evaluated; the right
    operand is only evaluated when [v] is falsy. *)
Definition assign_or (merged : dict) (k : string) (v : pyval) : outcome dict :=
  if truthy v then Ok (dict_set merged k v)
  else let? old := dict_item merged k in Ok (dict_set merged k old).

Definition is_none (v : pyval) : bool :=
  match v with PyNone => true | _ => false end.

Definition isinstance_dict (v : pyval) : bool :=
  match v with PyDict _ => true | _ => false end.

(** The block under [# From Numverify]; [nv] is [results.get("numverify") or {}]. *)
Definition merge_numverify (nv : pyval) (merged : dict) : outcome dict :=
  let? av := py_get nv "available" in
  if truthy av then
    let? v := py_get nv "international_format" in
    let? merged := assign_or merged "international_format" v in
    let? cur := dict_item merged "valid" in
    let? v := (if is_none cur then py_get nv "valid" else dict_item merged "valid") in
    let merged := dict_set merged "valid" v in
    let? v := py_get nv "country_name" in
    let? merged := assign_or merged "country_name" v in
    let? v := py_get nv "country_code" in
    let? merged := assign_or merged "country_code" v in
    let? v := py_get nv "location" in
    let? merged := assign_or merged "location" v in
    let? v := py_get nv "carrier" in
    let? merged := assign_or merged "carrier" v in
    let? v := py_get nv "line_type" in
    assign_or merged "line_type" v
  else Ok merged.

(** The block under [# From Twilio]; [tw] is [results.get("twilio") or {}]. *)
Definition merge_twilio (tw : pyval) (merged : dict) : outcome dict :=
  let? av := py_get tw "available" in
  if truthy av then
    let? pn := py_get tw "phone_number" in
    let? merged :=
      (if truthy pn then
         let? v := py_get tw "phone_number" in
         assign_or merged "international_format" v
       else Ok merged) in
    let? c := py_get tw "carrier" in
    let carrier := py_or c (PyDict []) in
    let? merged :=
      (if truthy carrier then
         let? v := py_get carrier "name" in
         let? merged := assign_or merged "carrier" v in
         let? v := py_get carrier "type" in
         assign_or merged "line_type" v
       else Ok merged) in
    let? cn := py_get tw "caller_name" in
    if truthy cn then
      if isinstance_dict cn then
        let? v := py_get cn "caller_name" in
        assign_or merged "caller_name" v
      else assign_or merged "caller_name" cn
    else Ok merged
  else Ok merged.

Definition merge (number : string) (results : dict) : outcome dict :=
  let merged := initial_merged number results in
  let nv := py_or (dict_get results "numverify") (PyDict []) in
  let? merged := merge_numverify nv merged in
  let tw := py_or (dict_get results "twilio") (PyDict []) in
  merge_twilio tw merged.

(** The returned bundle [{"merged": merged, "raw": results}]. *)
Definition bundle (merged results : dict) : pyval :=
  PyDict [("merged", PyDict merged); ("raw", PyDict results)].

(** The eight consolidated fields. *)
Definition canonical_fields : list string :=
  [ "international_format"; "valid"; "country_name"; "country_code";
    "location"; "carrier"; "line_type"; "caller_name" ].

Definition merged_keys : list string :=
  "queried_number" :: "providers" :: canonical_fields.

(** ** The world: clock, network log, cache store, chat outbox *)

Record request : Type := mkRequest {
  req_url : string;
  req_params : dict;
  req_auth : option (string * string);
  req_timeout : Z
}.

(** What [requests] hands back for a completed exchange: [json] is the
    outcome of [r.json()], [status_error] the text of the HTTPError that
    [r.raise_for_status()] raises for a 4xx/5xx status. *)
Record response : Type := mkResponse {
  status_code : Z;
  text : string;
  json : outcome pyval;
  status_error : string
}.

(** One answer of the network: how long the call took on the monotonic
    clock, and either a response or the exception [requests.get] raised
    (connection error, timeout, ...). *)
Record http_reply : Type := mkReply {
  elapsed : N;
  reply : outcome response
}.

Inductive tg_action : Type :=
| ReplyText (s : string)
| SendAction (action : string).

(** A cache link of [TTLCache]: key, value, expiry time; links are kept in
    insertion order, oldest first. *)
Definition link : Type := (string * pyval * Z)%type.

Record world : Type := mkWorld {
  clock : Z;
  net_log : list request;
  cache : list link;
  outbox : list tg_action
}.

(** Process configuration (the module-level constants read from the
    environment) and the two things outside the program: the network and
    [requests.utils.requote_uri]. The network may answer the same request
    differently each time: it is indexed by the number of earlier calls. *)
Record env : Type := mkEnv {
  NUMVERIFY_KEY : option string;
  TWILIO_SID : option string;
  TWILIO_AUTH : option string;
  WHITEPAGES_KEY : option string;
  CACHE_TTL : Z;
  network : nat -> request -> http_reply;
  requote_uri : string -> outcome string
}.

(** Truthiness of an [os.environ.get] result: [None] and [""] are falsy. *)
Definition env_set (o : option string) : bool :=
  match o with
  | None => false
  | Some s => negb (String.eqb s "")
  end.

Definition env_str (o : option string) : string :=
  match o with Some s => s | None => "" end.

(** ** A state-and-exception monad over the world *)

Definition M (A : Type) : Type := world -> outcome A * world.

Definition ret {A} (a : A) : M A := fun w => (Ok a, w).

Definition throw {A} (e : exn) : M A := fun w => (Raise e, w).

Definition bind {A B} (m : M A) (k : A -> M B) : M B :=
  fun w => match m w with
           | (Ok a, w') => k a w'
           | (Raise e, w') => (Raise e, w')
           end.

(** [try: m except Exception as e: h e] *)
Definition try_except {A} (m : M A) (h : exn -> M A) : M A :=
  fun w => match m w with
           | (Ok a, w') => (Ok a, w')
           | (Raise e, w') => h e w'
           end.

Definition lift {A} (o : outcome A) : M A := fun w => (o, w).

Declare Scope world_scope.
Delimit Scope world_scope with world.
Notation "x <- m ;; k" := (bind m (fun x => k))
  (at level 61, m at next level, right associativity) : world_scope.
Notation "m ;;; k" := (bind m (fun _ => k))
  (at level 61, right associativity) : world_scope.
Local Open Scope world_scope.

(** [requests.get(url, params=..., auth=..., timeout=10)] *)
Definition requests_get (E : env) (rq : request) : M response :=
  fun w =>
    let ans := network E (length (net_log w)) rq in
    (reply ans,
     mkWorld (clock w + Z.of_N (elapsed ans)) (net_log w ++ [rq])
             (cache w) (outbox w)).

(** [r.raise_for_status()] *)
Definition raise_for_status (r : response) : outcome unit :=
  if (400 <=? status_code r) && (status_code r <? 600)
  then Raise (mkExn "HTTPError" (status_error r))
  else Ok tt.

(** ** Provider wrappers *)

Definition failure (provider : string) (e : exn) : dict :=
  [ ("provider", PyStr provider); ("available", PyBool false);
    ("error", PyStr (str_exn e)) ].

Definition not_available (provider msg : string) : dict :=
  [ ("provider", PyStr provider); ("available", PyBool false);
    ("error", PyStr msg) ].

(** [data = r.json(); data["provider"] = name; data["available"] = True] *)
Definition tag_payload (provider : string) (r : response) : outcome dict :=
  let? data := json r in
  let? data := py_setitem data "provider" (PyStr provider) in
  py_setitem (PyDict data) "available" (PyBool true).

Definition numverify_request (api_key number : string) : request :=
  mkRequest "http://apilayer.net/api/validate"
            [ ("access_key", PyStr api_key); ("number", PyStr number);
              ("format", PyInt 1) ]
            None 10.

Definition call_numverify (E : env) (number : string) : M dict :=
  let api_key := NUMVERIFY_KEY E in
  if negb (env_set api_key) then
    ret (not_available "numverify" "No NUMVERIFY_KEY configured")
  else
    try_except
      (r <- requests_get E (numverify_request (env_str api_key) number) ;;
       lift (raise_for_status r) ;;;
       lift (tag_payload "numverify" r))
      (fun e => ret (failure "numverify" e)).

Definition twilio_request (E : env) (quoted : string) : request :=
  mkRequest ("https://lookups.twilio.com/v1/PhoneNumbers/" ++ quoted)
            [ ("Type", PyStr "carrier,caller-name") ]
            (Some (env_str (TWILIO_SID E), env_str (TWILIO_AUTH E))) 10.

(** The url is built before the [try]: an exception of [requote_uri] leaves
    the wrapper. *)
Definition call_twilio_lookup (E : env) (number : string) : M dict :=
  if negb (env_set (TWILIO_SID E) && env_set (TWILIO_AUTH E)) then
    ret (not_available "twilio" "No Twilio credentials configured")
  else
    quoted <- lift (requote_uri E number) ;;
    try_except
      (r <- requests_get E (twilio_request E quoted) ;;
       if status_code r =? 200 then lift (tag_payload "twilio" r)
       else ret [ ("provider", PyStr "twilio"); ("available", PyBool false);
                  ("status_code", PyInt (status_code r));
                  ("text", PyStr (text r)) ])
      (fun e => ret (failure "twilio" e)).

Definition call_whitepages_placeholder (E : env) (number : string) : M dict :=
  if negb (env_set (WHITEPAGES_KEY E)) then
    ret (not_available "whitepages" "No WHITEPAGES_KEY configured")
  else
    ret (not_available "whitepages"
                       "Placeholder - configure Whitepages integration").

(** ** The body of [aggregate_lookups] *)

Section Aggregation.

(** The three provider functions the body calls through the module
    globals [call_numverify], [call_twilio_lookup] and
    [call_whitepages_placeholder]; each may return a dict or raise. *)
Variables nv_call tw_call wp_call : string -> M dict.

(** [try: results[name] = call(number)
     except Exception as e: results[name] = {..failure..}] *)
Definition collect (name : string) (call : string -> M dict)
           (number : string) (results : dict) : M dict :=
  try_except
    (r <- call number ;; ret (dict_set results name (PyDict r)))
    (fun e => ret (dict_set results name (PyDict (failure name e)))).

(** Lines 103-120. *)
Definition fan_out (number : string) : M dict :=
  results <- collect "numverify" nv_call number [] ;;
  results <- collect "twilio" tw_call number results ;;
  collect "whitepages" wp_call number results.

(** Lines 103-170: the undecorated function. *)
Definition aggregate_body (number : string) : M pyval :=
  results <- fan_out number ;;
  merged <- lift (merge number results) ;;
  ret (bundle merged results).

End Aggregation.

(** ** [lookup_cache = TTLCache(maxsize=10000, ttl=CACHE_TTL)] and [@cached] *)

Definition lookup_cache_maxsize : Z := 10000.

(** Modelled from the spec: the read of the TTL cache of section 4.4 (the
    class [TTLCache] of cachetools, not part of the repository). An entry is
    served while the clock is strictly before its expiry time, which is its
    insertion time plus the ttl; otherwise the key reads as absent. *)
Fixpoint TTLCache_getitem (links : list link) (k : string) (now : Z)
  : option pyval :=
  match links with
  | [] => None
  | (k', v, expires) :: rest =>
      if String.eqb k k'
      then (if now <? expires then Some v else None)
      else TTLCache_getitem rest k now
  end.

(** Modelled from the spec: a stale entry is removed by the read that
    discovers it (section 4.4); the links the cache keeps after a read of
    [k] at time [now]. *)
Fixpoint TTLCache_drop_stale (links : list link) (k : string) (now : Z)
  : list link :=
  match links with
  | [] => []
  | (k', v, expires) :: rest =>
      if String.eqb k k'
      then (if now <? expires then links else rest)
      else (k', v, expires) :: TTLCache_drop_stale rest k now
  end.

(** Modelled from the spec: reclaiming the expired entries before an
    insertion (section 4.4); links are in insertion order, so with one ttl
    the expired ones are at the head. *)
Fixpoint TTLCache_expire (links : list link) (now : Z) : list link :=
  match links with
  | [] => []
  | (k, v, expires) :: rest =>
      if now <? expires then links else TTLCache_expire rest now
  end.

(** Modelled from the spec: whether the cache holds an entry under [k]. *)
Fixpoint TTLCache_contains (links : list link) (k : string) : bool :=
  match links with
  | [] => false
  | (k', _, _) :: rest => String.eqb k k' || TTLCache_contains rest k
  end.

(** Modelled from the spec: removal of the entry under [k], as part of
    replacing it. *)
Fixpoint TTLCache_remove (links : list link) (k : string) : list link :=
  match links with
  | [] => []
  | (k', v, e) :: rest =>
      if String.eqb k k' then TTLCache_remove rest k
      else (k', v, e) :: TTLCache_remove rest k
  end.

(** Modelled from the spec: capacity eviction (section 4.4): while one more
    entry would exceed the maximum, the least-recently-inserted entry is
    evicted. *)
Fixpoint TTLCache_evict (maxsize : Z) (links : list link) : list link :=
  match links with
  | [] => []
  | _ :: rest =>
      if Z.of_nat (length links) + 1 >? maxsize
      then TTLCache_evict maxsize rest
      else links
  end.

(** Modelled from the spec: the store [put] of section 4.4: expired entries
    are reclaimed, room is made if the key is new, and the entry is appended
    as the most recent one, expiring at [now + ttl]. The result is the new
    links and whether the value was stored; it is not in a cache that cannot
    hold a single item. *)
Definition TTLCache_setitem (maxsize ttl : Z) (links : list link)
           (k : string) (v : pyval) (now : Z) : bool * list link :=
  let links := TTLCache_expire links now in
  if 1 >? maxsize then (false, links)
  else
    let links :=
      if TTLCache_contains links k then links
      else TTLCache_evict maxsize links in
    (true, (TTLCache_remove links k ++ [(k, v, now + ttl)])%list).


Definition set_cache (links : list link) (w : world) : world :=
  mkWorld (clock w) (net_log w) links (outbox w).

(** Modelled from the spec: the memoising wrapper that [@cached(cache)]
    (cachetools, not part of the repository; called here without a lock)
    puts around a one-argument function, after the data flow of section 2:
    look the key up; on a hit return the stored bundle without calling the
    function; on a miss call the function, store its result and return it;
    an exception of the function propagates and stores nothing. *)
Definition cached (maxsize ttl : Z) (f : string -> M pyval)
           (number : string) : M pyval :=
  fun w =>
    match TTLCache_getitem (cache w) number (clock w) with
    | Some v => (Ok v, w)
    | None =>
        let w0 := set_cache (TTLCache_drop_stale (cache w) number (clock w)) w in
        match f number w0 with
        | (Ok v, w') =>
            let stored :=
              TTLCache_setitem maxsize ttl (cache w') number v (clock w') in
            (Ok v, set_cache (snd stored) w')
        | (Raise e, w') => (Raise e, w')
        end
    end.

Definition aggregate_lookups_uncached (E : env) : string -> M pyval :=
  aggregate_body (call_numverify E) (call_twilio_lookup E)
                 (call_whitepages_placeholder E).

(** The decorated [aggregate_lookups]. *)
Definition aggregate_lookups (E : env) : string -> M pyval :=
  cached lookup_cache_maxsize (CACHE_TTL E) (aggregate_lookups_uncached E).


(** ** The [/num] command handler *)

(** [ch.isdigit()] on the code points below 256: the ASCII digits and the
    superscripts U+00B2, U+00B3, U+00B9. *)
Definition isdigit (ch : ascii) : bool :=
  let n := N_of_ascii ch in
  ((48 <=? n) && (n <=? 57) || (n =? 178) || (n =? 179) || (n =? 185))%N.

(** [ch.isspace()] on the code points below 256. *)
Definition isspace (ch : ascii) : bool :=
  let n := N_of_ascii ch in
  ((9 <=? n) && (n <=? 13) || (28 <=? n) && (n <=? 32)
   || (n =? 133) || (n =? 160))%N.

Fixpoint lstrip (s : string) : string :=
  match s with
  | String c rest => if isspace c then lstrip rest else s
  | EmptyString => EmptyString
  end.

Fixpoint rstrip (s : string) : string :=
  match s with
  | EmptyString => EmptyString
  | String c rest =>
      match rstrip rest with
      | EmptyString => if isspace c then EmptyString else String c EmptyString
      | r => String c r
      end
  end.

(** [s.strip()] *)
Definition strip (s : string) : string := rstrip (lstrip s).

Fixpoint all_isdigit (s : string) : bool :=
  match s with
  | EmptyString => true
  | String c rest => isdigit c && all_isdigit rest
  end.

(** [number.startswith("+") and all(ch.isdigit() for ch in number[1:])] *)
Definition accepted (number : string) : bool :=
  match number with
  | String "+" rest => all_isdigit rest
  | _ => false
  end.

Definition reply_text (s : string) : M unit :=
  fun w => (Ok tt, mkWorld (clock w) (net_log w) (cache w)
                           (outbox w ++ [ReplyText s])).

Definition send_action (a : string) : M unit :=
  fun w => (Ok tt, mkWorld (clock w) (net_log w) (cache w)
                           (outbox w ++ [SendAction a])).

Definition usage_text : string :=
  "Usage: /num <phone_number_with_country_code>" ++ String "010" "" ++
  "Example: /num +919812345678".

Definition rejection_text : string :=
  "Please provide international format with + and digits only. Example: +919812345678".

(** [s[:n]] *)
Fixpoint take (n : nat) (s : string) : string :=
  match n, s with
  | S n', String c rest => String c (take n' rest)
  | _, _ => EmptyString
  end.

Section Handler.

(** The text rendering of a bundle ([format_response], lines 172-192) is
    kept abstract: a function from the bundle to a text, or an exception. *)
Variable format_response : pyval -> outcome string.

Variable E : env.

(** [num_handler], with [context.args] as [args]; running
    [aggregate_lookups] in the executor and awaiting it is a call. *)
Definition num_handler (args : list string) : M unit :=
  match args with
  | [] => reply_text usage_text
  | arg0 :: _ =>
      let number := strip arg0 in
      if negb (accepted number) then reply_text rejection_text
      else
        send_action "typing" ;;;
        resp_text <-
          try_except
            (agg <- aggregate_lookups E number ;;
             lift (format_response agg))
            (fun e => ret ("Error during lookup: " ++ str_exn e)) ;;
        if (4000 <? Z.of_nat (String.length resp_text))
        then reply_text "Result too long — sending as a text file." ;;;
             reply_text (take 4000 resp_text)
        else reply_text resp_text
  end.

End Handler.

(** ** Vocabulary of the statements *)

(** The results mapping as the fan-out builds it. *)
Definition results_of (nv tw wp : dict) : dict :=
  [ ("numverify", PyDict nv); ("twilio", PyDict tw); ("whitepages", PyDict wp) ].

Definition provider_names : list string := [ "numverify"; "twilio"; "whitepages" ].

Definition available (r : dict) : bool := truthy (dict_get r "available").

(** A merged record with the given values under its ten keys. *)
Definition slots (qn pr intl valid cname ccode loc car lt cn : pyval) : dict :=
  [ ("queried_number", qn); ("providers", pr); ("international_format", intl);
    ("valid", valid); ("country_name", cname); ("country_code", ccode);
    ("location", loc); ("carrier", car); ("line_type", lt);
    ("caller_name", cn) ].

(** The values of the eight consolidated fields of a merge outcome. *)
Definition canonical_view (o : outcome dict) : outcome (list pyval) :=
  let? m := o in Ok (map (dict_get m) canonical_fields).

(** [carrier = tw.get("carrier") or {}] *)
Definition twilio_carrier (tw : dict) : pyval :=
  py_or (dict_get tw "carrier") (PyDict []).

(** The carrier entry of an available Twilio result is usable by the merge
    when it is absent or falsy, or a JSON object. *)
Definition carrier_wellformed (tw : dict) : bool :=
  negb (available tw) || isinstance_dict (twilio_carrier tw).

(** What a provider offers for a consolidated field, following the spec's
    description of the merge: nothing ([None]) when the provider is not
    available; Numverify offers its own flat fields; Twilio offers
    [phone_number] as international_format, the nested carrier object's
    [name] and [type] as carrier and line_type, and its caller name with one
    level of nesting unwrapped. *)
Definition numverify_fields : list string :=
  [ "international_format"; "valid"; "country_name"; "country_code";
    "location"; "carrier"; "line_type" ].

Definition offers_numverify (nv : dict) (f : string) : pyval :=
  if available nv && existsb (String.eqb f) numverify_fields
  then dict_get nv f else PyNone.

Definition unwrap_caller_name (cn : pyval) : pyval :=
  match cn with
  | PyDict c => dict_get c "caller_name"
  | _ => cn
  end.

Definition offers_twilio (tw : dict) (f : string) : pyval :=
  if available tw then
    if String.eqb f "international_format" then dict_get tw "phone_number"
    else if String.eqb f "carrier" then
      match twilio_carrier tw with PyDict c => dict_get c "name" | _ => PyNone end
    else if String.eqb f "line_type" then
      match twilio_carrier tw with PyDict c => dict_get c "type" | _ => PyNone end
    else if String.eqb f "caller_name" then
      unwrap_caller_name (dict_get tw "caller_name")
    else PyNone
  else PyNone.

(** Scanning the offers in provider order, every non-empty offer replaces
    what was held before. *)
Definition last_nonempty (offers : list pyval) : pyval :=
  fold_left (fun held v => py_or v held) offers PyNone.

(** The spec's first-wins reading, for comparison: the first non-empty
    offer is kept. *)
Definition first_nonempty (offers : list pyval) : pyval :=
  fold_right py_or PyNone offers.

Definition consolidated_field (nv tw : dict) (f : string) : pyval :=
  if String.eqb f "valid" then offers_numverify nv "valid"
  else last_nonempty [ offers_numverify nv f; offers_twilio tw f ].

(** The merged record in closed form. *)
Definition consolidated (number : string) (results nv tw : dict) : dict :=
  slots (PyStr number) (PyDict results)
        (consolidated_field nv tw "international_format")
        (consolidated_field nv tw "valid")
        (consolidated_field nv tw "country_name")
        (consolidated_field nv tw "country_code")
        (consolidated_field nv tw "location")
        (consolidated_field nv tw "carrier")
        (consolidated_field nv tw "line_type")
        (consolidated_field nv tw "caller_name").

(** One provider call as the fan-out sees it: the dict it returns, or the
    failure record built from the exception it raises. *)
Definition isolated (name : string) (call : string -> M dict)
           (number : string) (w : world) : dict * world :=
  match call number w with
  | (Ok r, w') => (r, w')
  | (Raise e, w') => (failure name e, w')
  end.


(** The shapes a provider wrapper's result can take. *)
Definition tagged (name : string) (payload : dict) : dict :=
  dict_set (dict_set payload "provider" (PyStr name)) "available" (PyBool true).

Definition status_record (status : Z) (txt : string) : dict :=
  [ ("provider", PyStr "twilio"); ("available", PyBool false);
    ("status_code", PyInt status); ("text", PyStr txt) ].

(** The invariant of provider results the wrappers establish: a result names
    its provider; when not available it carries an error text or, for a
    Twilio answer with a status other than 200, the status code and body
    text instead; when available it is the provider's JSON object with the
    two tags set, so it has an [error] entry exactly when the payload has. *)
Definition result_invariant (name : string) (r : dict) : Prop :=
  dict_get r "provider" = PyStr name /\
  ((dict_get r "available" = PyBool false /\
    ((exists msg, dict_find r "error" = Some (PyStr msg)) \/
     (name = "twilio" /\ dict_find r "error" = None /\
      exists status txt,
        status <> 200 /\
        dict_find r "status_code" = Some (PyInt status) /\
        dict_find r "text" = Some (PyStr txt)))) \/
   (dict_get r "available" = PyBool true /\
    exists payload,
      r = tagged name payload /\
      dict_find r "error" = dict_find payload "error")).



(** ** Example inputs *)

Definition empty_world : world := mkWorld 0 [] [] [].

(** No credentials configured; the network is never reached. *)
Definition bare_env : env :=
  mkEnv None None None None 3600
        (fun _ _ => mkReply 0 (Raise (mkExn "ConnectionError" "unreachable")))
        (fun s => Ok s).

(** Numverify answers 200 with an API error object, Twilio answers 404. *)
Definition error_payload : pyval :=
  PyDict [ ("success", PyBool false);
           ("error", PyDict [ ("code", PyInt 101);
                              ("type", PyStr "invalid_access_key") ]) ].

Definition sample_network (n : nat) (rq : request) : http_reply :=
  if String.eqb (req_url rq) "http://apilayer.net/api/validate"
  then mkReply 2 (Ok (mkResponse 200 "{}" (Ok error_payload) ""))
  else mkReply 3 (Ok (mkResponse 404 "not found"
                                 (Raise (mkExn "JSONDecodeError" "Expecting value"))
                                 "404 Client Error")).

Definition sample_env : env :=
  mkEnv (Some "key") (Some "sid") (Some "auth") None 3600
        sample_network (fun s => Ok s).


(** Twilio answers 200 with a carrier that is a string, not an object. *)
Definition flat_carrier_network (n : nat) (rq : request) : http_reply :=
  mkReply 1 (Ok (mkResponse 200 "{}"
                   (Ok (PyDict [ ("carrier", PyStr "Other") ])) "")).

Definition flat_carrier_env : env :=
  mkEnv None (Some "sid") (Some "auth") None 3600
        flat_carrier_network (fun s => Ok s).

(** The scenario of the spec's section 8, with Twilio's carrier in its
    nested form and in the flat form the scenario writes. *)
Definition scenario_numverify : dict :=
  [ ("carrier", PyStr "Acme"); ("line_type", PyStr "mobile");
    ("available", PyBool true) ].

Definition scenario_twilio : dict :=
  [ ("carrier", PyDict [ ("name", PyStr "Other") ]); ("available", PyBool true) ].

Definition scenario_twilio_flat : dict :=
  [ ("carrier", PyStr "Other"); ("available", PyBool true) ].

Definition scenario_whitepages : dict :=
  not_available "whitepages" "No WHITEPAGES_KEY configured".

Definition invalid_numverify : dict :=
  [ ("valid", PyBool false); ("available", PyBool true) ].

Definition valid_twilio : dict :=
  [ ("valid", PyBool true); ("available", PyBool true) ].

(** ** Text rendering: [format_response] (lines 172-192) *)

Definition dquote : string := String (ascii_of_nat 34) EmptyString.

Definition newline : string := String (ascii_of_nat 10) EmptyString.

(** [o[k]] with a string key on an arbitrary value. *)
Definition py_item (o : pyval) (k : string) : outcome pyval :=
  match o with
  | PyDict d => dict_item d k
  | PyList _ => Raise (TypeError "list indices must be integers or slices, not str")
  | PyStr _ => Raise (TypeError "string indices must be integers, not 'str'")
  | _ => Raise (TypeError ("'" ++ py_typename o ++ "' object is not subscriptable"))
  end.

(** [o.items()] *)
Definition py_items (o : pyval) : outcome (list (string * pyval)) :=
  match o with
  | PyDict d => Ok d
  | _ => Raise (AttributeError o "items")
  end.

(** [s + v] for a str [s]. *)
Definition str_concat (s : string) (v : pyval) : outcome string :=
  match v with
  | PyStr t => Ok (s ++ t)
  | _ => Raise (TypeError ("can only concatenate str (not " ++ dquote ++
                           py_typename v ++ dquote ++ ") to str"))
  end.

(** [r.get("error") or r.get("text") or ""] on a dict. *)
Definition summary_error (r : dict) : pyval :=
  py_or (dict_get r "error") (py_or (dict_get r "text") (PyStr "")).

Definition is_str (v : pyval) : bool :=
  match v with PyStr _ => true | _ => false end.

Section Rendering.

(** [repr] of the values whose text form is not spelled out below (floats,
    lists, dicts): a builtin of the language. *)
Variable py_repr : pyval -> string.

(** [str(v)], which is what an f-string field without format spec inserts. *)
Definition py_str (v : pyval) : string :=
  match v with
  | PyNone => "None"
  | PyBool true => "True"
  | PyBool false => "False"
  | PyInt z => NilZero.string_of_int (Z.to_int z)
  | PyStr s => s
  | _ => py_repr v
  end.

(** The body of the loop over [agg["raw"].items()]. *)
Definition provider_line (p : string) (r : pyval) : outcome string :=
  let? av := py_get r "available" in
  let ok := if truthy av then "OK" else "NO" in
  let? e1 := py_get r "error" in
  let? err :=
    (if truthy e1 then Ok e1
     else let? e2 := py_get r "text" in Ok (py_or e2 (PyStr ""))) in
  let? tail := (if truthy err then str_concat "- " err else Ok "") in
  Ok (" - " ++ p ++ ": " ++ ok ++ " " ++ tail).

Fixpoint provider_lines (items : list (string * pyval))
  : outcome (list string) :=
  match items with
  | [] => Ok []
  | (p, r) :: rest =>
      let? line := provider_line p r in
      let? lines := provider_lines rest in
      Ok (line :: lines)
  end.

(** The two pictographs of the source text lie outside the code points
    below 256; they are written here in their UTF-8 bytes. *)
Definition format_response (agg : pyval) : outcome string :=
  let? m := py_item agg "merged" in
  let? v := py_get m "queried_number" in
  let l_query := "🔎 Results for: " ++ py_str v in
  let? v := py_get m "international_format" in
  let l_intl := "International: " ++ py_str (py_or v (PyStr "N/A")) in
  let? v := py_get m "valid" in
  let l_valid := "Valid: " ++ py_str v in
  let? v := py_get m "country_name" in
  let? c := py_get m "country_code" in
  let l_country :=
    "Country: " ++ py_str (py_or v (PyStr "N/A")) ++
    " (" ++ py_str (py_or c (PyStr "N/A")) ++ ")" in
  let? v := py_get m "location" in
  let l_location := "Location/Region: " ++ py_str (py_or v (PyStr "N/A")) in
  let? v := py_get m "carrier" in
  let l_carrier := "Carrier: " ++ py_str (py_or v (PyStr "N/A")) in
  let? v := py_get m "line_type" in
  let l_line := "Line type: " ++ py_str (py_or v (PyStr "N/A")) in
  let? v := py_get m "caller_name" in
  let l_caller := "Caller name (CNAM): " ++ py_str (py_or v (PyStr "N/A")) in
  let? raw := py_item agg "raw" in
  let? items := py_items raw in
  let? lines := provider_lines items in
  Ok (String.concat newline
        ([ l_query; ""; l_intl; l_valid; l_country; l_location; l_carrier;
           l_line; l_caller; ""; "Providers summary:" ]
         ++ lines ++
         [ "";
           "⚠️ Note: This bot shows public/API-provided info only. It cannot provide live GPS or covert personal data." ])%list).

End Rendering.

(** ** Vocabulary of the further statements *)

(** The requests one run of the fan-out sends for [number]: one to
    Numverify if its key is configured, then one to Twilio if both its
    credentials are configured and quoting the number succeeds. *)
Definition expected_requests (E : env) (number : string) : list request :=
  ((if env_set (NUMVERIFY_KEY E)
    then [ numverify_request (env_str (NUMVERIFY_KEY E)) number ] else []) ++
   (if env_set (TWILIO_SID E) && env_set (TWILIO_AUTH E)
    then match requote_uri E number with
         | Ok quoted => [ twilio_request E quoted ]
         | Raise _ => []
         end
    else []))%list.

(** Every cached value is a bundle made for the key it is stored under. *)
Definition bundle_for (k : string) (v : pyval) : Prop :=
  exists merged results,
    v = bundle merged results /\
    dict_keys merged = merged_keys /\
    dict_find merged "queried_number" = Some (PyStr k) /\
    dict_find merged "providers" = Some (PyDict results) /\
    dict_keys results = provider_names.

Definition cache_wf (links : list link) : Prop :=
  Forall (fun l : link => bundle_for (fst (fst l)) (snd (fst l))) links.


(** The text of the reply when the lookup or the rendering raised [e]. *)
Definition error_text (e : exn) : string := "Error during lookup: " ++ str_exn e.

(** The world after one request has been sent and answered. *)
Definition after_request (E : env) (rq : request) (w : world) : world :=
  mkWorld (clock w + Z.of_N (elapsed (network E (length (net_log w)) rq)))
          (net_log w ++ [rq]) (cache w) (outbox w).

(** ** Dictionaries: basic facts *)

Lemma dict_find_set_same (d : dict) (k : string) (v : pyval) :
  dict_find (dict_set d k v) k = Some v.
Proof.
  induction d as [| [k' v'] d IH]; simpl.
  - rewrite String.eqb_refl. reflexivity.
  - destruct (String.eqb k k') eqn:Hk; simpl; rewrite Hk; [reflexivity | exact IH].
Qed.

Lemma dict_find_set_other (d : dict) (k k' : string) (v : pyval) :
  k' <> k -> dict_find (dict_set d k v) k' = dict_find d k'.
Proof.
  intros Hne. induction d as [| [k0 v0] d IH]; simpl.
  - apply String.eqb_neq in Hne. rewrite Hne. reflexivity.
  - destruct (String.eqb k k0) eqn:Hk; simpl.
    + apply String.eqb_eq in Hk. subst k0.
      apply String.eqb_neq in Hne. rewrite Hne. reflexivity.
    + destruct (String.eqb k' k0); [reflexivity | exact IH].
Qed.

Lemma dict_get_set_same (d : dict) (k : string) (v : pyval) :
  dict_get (dict_set d k v) k = v.
Proof. unfold dict_get. rewrite dict_find_set_same. reflexivity. Qed.

Lemma dict_get_set_other (d : dict) (k k' : string) (v : pyval) :
  k' <> k -> dict_get (dict_set d k v) k' = dict_get d k'.
Proof. intros H. unfold dict_get. rewrite dict_find_set_other by exact H. reflexivity. Qed.

Lemma py_or_dict (d : dict) : py_or (PyDict d) (PyDict []) = PyDict d.
Proof. destruct d; reflexivity. Qed.

Lemma py_or_none (v : pyval) : truthy v = false -> py_or v PyNone = PyNone.
Proof. intros H. unfold py_or. rewrite H. reflexivity. Qed.

Lemma py_or_truthy (v w : pyval) : truthy v = true -> py_or v w = v.
Proof. intros H. unfold py_or. rewrite H. reflexivity. Qed.

Lemma py_or_falsy (v w : pyval) : truthy v = false -> py_or v w = w.
Proof. intros H. unfold py_or. rewrite H. reflexivity. Qed.

Lemma assign_or_present (merged : dict) (k : string) (v old : pyval) :
  dict_find merged k = Some old ->
  assign_or merged k v = Ok (dict_set merged k (py_or v old)).
Proof.
  intros Hold. unfold assign_or, py_or, dict_item. rewrite Hold.
  destruct (truthy v); reflexivity.
Qed.

(** ** The merge in closed form *)

Ltac assign_steps :=
  repeat (erewrite assign_or_present by reflexivity; cbn).

Lemma merge_numverify_closed (nv : dict) (qn pr : pyval) :
  merge_numverify (PyDict nv)
    (slots qn pr PyNone PyNone PyNone PyNone PyNone PyNone PyNone PyNone) =
  Ok (slots qn pr
        (py_or (offers_numverify nv "international_format") PyNone)
        (offers_numverify nv "valid")
        (py_or (offers_numverify nv "country_name") PyNone)
        (py_or (offers_numverify nv "country_code") PyNone)
        (py_or (offers_numverify nv "location") PyNone)
        (py_or (offers_numverify nv "carrier") PyNone)
        (py_or (offers_numverify nv "line_type") PyNone)
        PyNone).
Proof.
  unfold merge_numverify, slots. cbn [py_get obind].
  assert (Hoff : forall f, existsb (String.eqb f) numverify_fields = true ->
            offers_numverify nv f =
            if truthy (dict_get nv "available") then dict_get nv f else PyNone).
  { intros f Hf. unfold offers_numverify, available. rewrite Hf, andb_true_r.
    reflexivity. }
  rewrite !Hoff by reflexivity.
  destruct (truthy (dict_get nv "available")); [| reflexivity].
  assign_steps. reflexivity.
Qed.

Lemma phone_number_step (pn qn pr a b c d e f g h : pyval) :
  (if truthy pn
   then assign_or (slots qn pr a b c d e f g h) "international_format" pn
   else Ok (slots qn pr a b c d e f g h)) =
  Ok (slots qn pr (py_or pn a) b c d e f g h).
Proof.
  unfold py_or, assign_or.
  destruct (truthy pn); reflexivity.
Qed.

Lemma carrier_step (cd : dict) (qn pr a b c d e f g h : pyval) :
  (if truthy (PyDict cd)
   then let? v := py_get (PyDict cd) "name" in
        let? merged := assign_or (slots qn pr a b c d e f g h) "carrier" v in
        let? v := py_get (PyDict cd) "type" in
        assign_or merged "line_type" v
   else Ok (slots qn pr a b c d e f g h)) =
  Ok (slots qn pr a b c d e
        (py_or (dict_get cd "name") f) (py_or (dict_get cd "type") g) h).
Proof.
  destruct cd as [| p cd]; [reflexivity |].
  cbn [truthy py_get obind]. unfold slots. assign_steps. reflexivity.
Qed.

Lemma caller_name_step (cn qn pr a b c d e f g h : pyval) :
  (if truthy cn
   then if isinstance_dict cn
        then let? v := py_get cn "caller_name" in
             assign_or (slots qn pr a b c d e f g h) "caller_name" v
        else assign_or (slots qn pr a b c d e f g h) "caller_name" cn
   else Ok (slots qn pr a b c d e f g h)) =
  Ok (slots qn pr a b c d e f g
        (py_or (unwrap_caller_name cn) h)).
Proof.
  destruct (truthy cn) eqn:Hcn.
  - destruct cn; cbn [isinstance_dict py_get obind]; unfold slots;
      assign_steps; reflexivity.
  - destruct cn as [| | | | | | c0];
      try (unfold unwrap_caller_name; rewrite py_or_falsy by exact Hcn; reflexivity).
    destruct c0; [reflexivity | discriminate Hcn].
Qed.

Lemma twilio_carrier_cases (tw : dict) :
  (exists cd, twilio_carrier tw = PyDict cd) \/
  (isinstance_dict (twilio_carrier tw) = false /\
   truthy (twilio_carrier tw) = true).
Proof.
  unfold twilio_carrier, py_or.
  destruct (truthy (dict_get tw "carrier")) eqn:Ht.
  - destruct (dict_get tw "carrier") as [| | | | | | cd];
      try (right; split; [reflexivity | exact Ht]).
    left. exists cd. reflexivity.
  - left. exists []. reflexivity.
Qed.

Lemma merge_twilio_closed (tw : dict) (qn pr a b c d e f g h : pyval) :
  merge_twilio (PyDict tw) (slots qn pr a b c d e f g h) =
  if carrier_wellformed tw then
    Ok (slots qn pr
          (py_or (offers_twilio tw "international_format") a) b c d e
          (py_or (offers_twilio tw "carrier") f)
          (py_or (offers_twilio tw "line_type") g)
          (py_or (offers_twilio tw "caller_name") h))
  else Raise (AttributeError (twilio_carrier tw) "get").
Proof.
  unfold merge_twilio, carrier_wellformed, offers_twilio, available.
  cbn [py_get obind].
  destruct (truthy (dict_get tw "available")); [| reflexivity].
  cbn [negb orb String.eqb Ascii.eqb Bool.eqb].
  fold (twilio_carrier tw).
  rewrite phone_number_step. cbn [obind].
  destruct (twilio_carrier_cases tw) as [[cd Hc] | [Hnd Ht]].
  - rewrite Hc. rewrite carrier_step. cbn [obind isinstance_dict].
    rewrite caller_name_step. reflexivity.
  - rewrite Hnd, Ht.
    destruct (twilio_carrier tw); try discriminate Hnd; reflexivity.
Qed.

Lemma offers_twilio_none (tw : dict) (f : string) :
  existsb (String.eqb f)
          ["international_format"; "carrier"; "line_type"; "caller_name"] = false ->
  offers_twilio tw f = PyNone.
Proof.
  intros Hf. cbn [existsb] in Hf. rewrite !orb_false_iff in Hf.
  destruct Hf as (H1 & H2 & H3 & H4 & _).
  unfold offers_twilio. rewrite H1, H2, H3, H4.
  destruct (available tw); reflexivity.
Qed.

Lemma consolidated_unfold (number : string) (results nv tw : dict) :
  consolidated number results nv tw =
  slots (PyStr number) (PyDict results)
    (py_or (offers_twilio tw "international_format")
       (py_or (offers_numverify nv "international_format") PyNone))
    (offers_numverify nv "valid")
    (py_or (offers_numverify nv "country_name") PyNone)
    (py_or (offers_numverify nv "country_code") PyNone)
    (py_or (offers_numverify nv "location") PyNone)
    (py_or (offers_twilio tw "carrier")
       (py_or (offers_numverify nv "carrier") PyNone))
    (py_or (offers_twilio tw "line_type")
       (py_or (offers_numverify nv "line_type") PyNone))
    (py_or (offers_twilio tw "caller_name") PyNone).
Proof.
  unfold consolidated, consolidated_field, last_nonempty.
  cbn [String.eqb Ascii.eqb Bool.eqb fold_left].
  rewrite (offers_twilio_none tw "country_name"),
          (offers_twilio_none tw "country_code"),
          (offers_twilio_none tw "location") by reflexivity.
  assert (Hcn : offers_numverify nv "caller_name" = PyNone).
  { unfold offers_numverify. rewrite andb_comm. reflexivity. }
  rewrite Hcn. reflexivity.
Qed.

Lemma merge_closed (number : string) (results : dict) :
  merge number results =
  match py_or (dict_get results "numverify") (PyDict []) with
  | PyDict nv =>
      match py_or (dict_get results "twilio") (PyDict []) with
      | PyDict tw =>
          if carrier_wellformed tw
          then Ok (consolidated number results nv tw)
          else Raise (AttributeError (twilio_carrier tw) "get")
      | o => Raise (AttributeError o "get")
      end
  | o => Raise (AttributeError o "get")
  end.
Proof.
  unfold merge.
  change (initial_merged number results) with
    (slots (PyStr number) (PyDict results)
           PyNone PyNone PyNone PyNone PyNone PyNone PyNone PyNone).
  destruct (py_or (dict_get results "numverify") (PyDict [])) as [| | | | | | nv];
    try reflexivity.
  rewrite merge_numverify_closed. cbn [obind].
  destruct (py_or (dict_get results "twilio") (PyDict [])) as [| | | | | | tw];
    try reflexivity.
  rewrite merge_twilio_closed, consolidated_unfold. reflexivity.
Qed.

Lemma merge_results_of (number : string) (nv tw wp : dict) :
  merge number (results_of nv tw wp) =
  if carrier_wellformed tw
  then Ok (consolidated number (results_of nv tw wp) nv tw)
  else Raise (AttributeError (twilio_carrier tw) "get").
Proof.
  rewrite merge_closed.
  change (dict_get (results_of nv tw wp) "numverify") with (PyDict nv).
  change (dict_get (results_of nv tw wp) "twilio") with (PyDict tw).
  rewrite !py_or_dict. reflexivity.
Qed.


Lemma merge_ok_inv (number : string) (nv tw wp m : dict) :
  merge number (results_of nv tw wp) = Ok m ->
  carrier_wellformed tw = true /\
  m = consolidated number (results_of nv tw wp) nv tw.
Proof.
  rewrite merge_results_of.
  destruct (carrier_wellformed tw); intros H; [| discriminate H].
  injection H as <-. split; reflexivity.
Qed.

Lemma consolidated_get (number : string) (results nv tw : dict) (f : string) :
  In f canonical_fields ->
  dict_find (consolidated number results nv tw) f =
  Some (consolidated_field nv tw f).
Proof.
  intros Hf. cbn [canonical_fields In] in Hf.
  repeat (destruct Hf as [<- | Hf]; [reflexivity |]). contradiction.
Qed.

(** ** Merge priority *)

(** C1, as the spec states it, fails: with Numverify offering carrier "Acme"
    and line_type "mobile" and an available Twilio result offering carrier
    "Other" through its nested carrier object, the consolidated carrier is
    "Other"; with the carrier written flat, as in the spec's scenario, the
    merge raises AttributeError and yields no record. *)
Lemma first_wins_counterexample :
  available scenario_numverify = true /\
  dict_get scenario_numverify "carrier" = PyStr "Acme" /\
  available scenario_twilio = true /\
  offers_twilio scenario_twilio "carrier" = PyStr "Other" /\
  first_nonempty [ offers_numverify scenario_numverify "carrier";
                   offers_twilio scenario_twilio "carrier" ] = PyStr "Acme" /\
  canonical_view
    (merge "+919812345678"
           (results_of scenario_numverify scenario_twilio scenario_whitepages)) =
  Ok [ PyNone; PyNone; PyNone; PyNone; PyNone;
       PyStr "Other"; PyStr "mobile"; PyNone ] /\
  merge "+919812345678"
        (results_of scenario_numverify scenario_twilio_flat scenario_whitepages) =
  Raise (AttributeError (PyStr "Other") "get").
Proof. repeat split; reflexivity. Qed.

(** C1, amended: the merge is last-non-empty-wins in the order Numverify,
    then Twilio. For every consolidated field other than [valid], whenever
    Twilio's carrier entry is absent, empty or an object, the merge returns a
    record that holds Twilio's offer if that is non-empty (even when
    Numverify offered a different non-empty value), else Numverify's offer
    if that is non-empty, else None. *)
Theorem merge_last_nonempty_wins (number : string) (nv tw wp : dict) (f : string) :
  In f canonical_fields -> f <> "valid" ->
  carrier_wellformed tw = true ->
  exists m,
    merge number (results_of nv tw wp) = Ok m /\
    dict_get m f = last_nonempty [ offers_numverify nv f; offers_twilio tw f ] /\
    (truthy (offers_twilio tw f) = true -> dict_get m f = offers_twilio tw f) /\
    (truthy (offers_twilio tw f) = false ->
     truthy (offers_numverify nv f) = true ->
     dict_get m f = offers_numverify nv f) /\
    (truthy (offers_twilio tw f) = false ->
     truthy (offers_numverify nv f) = false ->
     dict_get m f = PyNone).
Proof.
  intros Hf Hv Hc. rewrite merge_results_of, Hc.
  eexists. split; [reflexivity |].
  assert (Hget : dict_get (consolidated number (results_of nv tw wp) nv tw) f =
                 last_nonempty [offers_numverify nv f; offers_twilio tw f]).
  { unfold dict_get. rewrite consolidated_get by exact Hf.
    unfold consolidated_field.
    apply String.eqb_neq in Hv. rewrite Hv. reflexivity. }
  rewrite Hget. unfold last_nonempty. cbn [fold_left].
  split; [reflexivity |].
  split; [| split].
  - intros Ht. apply py_or_truthy. exact Ht.
  - intros Ht Hn. rewrite (py_or_falsy _ _ Ht). apply py_or_truthy. exact Hn.
  - intros Ht Hn. rewrite (py_or_falsy _ _ Ht). apply py_or_falsy. exact Hn.
Qed.

Lemma merge_last_nonempty_wins_witness :
  exists m,
    merge "+919812345678"
          (results_of scenario_numverify scenario_twilio scenario_whitepages) = Ok m /\
    dict_get m "carrier" =
      last_nonempty [ offers_numverify scenario_numverify "carrier";
                      offers_twilio scenario_twilio "carrier" ] /\
    (truthy (offers_twilio scenario_twilio "carrier") = true ->
     dict_get m "carrier" = offers_twilio scenario_twilio "carrier") /\
    (truthy (offers_twilio scenario_twilio "carrier") = false ->
     truthy (offers_numverify scenario_numverify "carrier") = true ->
     dict_get m "carrier" = offers_numverify scenario_numverify "carrier") /\
    (truthy (offers_twilio scenario_twilio "carrier") = false ->
     truthy (offers_numverify scenario_numverify "carrier") = false ->
     dict_get m "carrier" = PyNone).
Proof.
  apply (merge_last_nonempty_wins "+919812345678" scenario_numverify
           scenario_twilio scenario_whitepages "carrier").
  - simpl. tauto.
  - discriminate.
  - reflexivity.
Defined.

(** ** The [valid] field *)



(** ** The fan-out *)

Section FanOut.

Variables nv_call tw_call wp_call : string -> M dict.

Lemma collect_isolated (name : string) (call : string -> M dict)
      (number : string) (results : dict) (w : world) :
  collect name call number results w =
  (Ok (dict_set results name (PyDict (fst (isolated name call number w)))),
   snd (isolated name call number w)).
Proof.
  unfold collect, isolated, try_except, bind, ret.
  destruct (call number w) as [[r | e] w']; reflexivity.
Qed.

Lemma fan_out_closed (number : string) (w : world) :
  fan_out nv_call tw_call wp_call number w =
  let s1 := isolated "numverify" nv_call number w in
  let s2 := isolated "twilio" tw_call number (snd s1) in
  let s3 := isolated "whitepages" wp_call number (snd s2) in
  (Ok (results_of (fst s1) (fst s2) (fst s3)), snd s3).
Proof.
  unfold fan_out, bind. rewrite collect_isolated.
  rewrite collect_isolated. rewrite collect_isolated. reflexivity.
Qed.

Lemma aggregate_body_closed (number : string) (w : world) :
  aggregate_body nv_call tw_call wp_call number w =
  match fan_out nv_call tw_call wp_call number w with
  | (Ok results, w') =>
      match merge number results with
      | Ok merged => (Ok (bundle merged results), w')
      | Raise e => (Raise e, w')
      end
  | (Raise e, w') => (Raise e, w')
  end.
Proof.
  unfold aggregate_body, bind, lift, ret.
  destruct (fan_out nv_call tw_call wp_call number w) as [[results | e] w'];
    [| reflexivity].
  destruct (merge number results); reflexivity.
Qed.


End FanOut.


(** ** Consolidated fields of unavailable providers *)









Section Bundles.

Variables nv_call tw_call wp_call : string -> M dict.


(** C9: every bundle the aggregation returns is [{"merged": .., "raw": ..}]
    where raw is the mapping the fan-out produced, with exactly the keys
    numverify, twilio, whitepages, and merged has exactly the ten keys
    queried_number, providers and the eight consolidated fields, with
    queried_number the input number and providers the same mapping; and the
    aggregation does return a bundle whenever the Twilio entry's carrier is
    absent, empty or an object. *)
Theorem bundle_shape (number : string) (w : world) :
  (forall b w',
     aggregate_body nv_call tw_call wp_call number w = (Ok b, w') ->
     exists merged results,
       b = PyDict [ ("merged", PyDict merged); ("raw", PyDict results) ] /\
       fan_out nv_call tw_call wp_call number w = (Ok results, w') /\
       dict_keys results = [ "numverify"; "twilio"; "whitepages" ] /\
       dict_keys merged =
         [ "queried_number"; "providers"; "international_format"; "valid";
           "country_name"; "country_code"; "location"; "carrier";
           "line_type"; "caller_name" ] /\
       dict_find merged "queried_number" = Some (PyStr number) /\
       dict_find merged "providers" = Some (PyDict results)) /\
  (forall r1 r2 r3 w',
     fan_out nv_call tw_call wp_call number w = (Ok (results_of r1 r2 r3), w') ->
     carrier_wellformed r2 = true ->
     exists b, aggregate_body nv_call tw_call wp_call number w = (Ok b, w')).
Proof.
  split.
  - intros b w' Hagg. rewrite aggregate_body_closed in Hagg.
    rewrite fan_out_closed in *. cbv zeta in *.
    set (r1 := fst (isolated "numverify" nv_call number w)) in *.
    set (w1 := snd (isolated "numverify" nv_call number w)) in *.
    set (r2 := fst (isolated "twilio" tw_call number w1)) in *.
    set (w2 := snd (isolated "twilio" tw_call number w1)) in *.
    set (r3 := fst (isolated "whitepages" wp_call number w2)) in *.
    cbv beta iota in Hagg.
    destruct (merge number (results_of r1 r2 r3)) as [merged | e] eqn:Hm;
      [| discriminate Hagg].
    injection Hagg as <- <-.
    apply merge_ok_inv in Hm. destruct Hm as [_ ->].
    eexists. eexists. repeat split; reflexivity.
  - intros r1 r2 r3 w' Hfan Hc.
    rewrite aggregate_body_closed, Hfan, merge_results_of, Hc.
    eexists. reflexivity.
Qed.

End Bundles.


Lemma bundle_shape_witness :
  exists b,
    aggregate_lookups_uncached bare_env "+919812345678" empty_world =
      (Ok b, empty_world).
Proof.
  apply (proj2 (bundle_shape
                  (call_numverify bare_env) (call_twilio_lookup bare_env)
                  (call_whitepages_placeholder bare_env)
                  "+919812345678" empty_world)
               (not_available "numverify" "No NUMVERIFY_KEY configured")
               (not_available "twilio" "No Twilio credentials configured")
               (not_available "whitepages" "No WHITEPAGES_KEY configured")).
  - reflexivity.
  - reflexivity.
Defined.

(** ** The whitepages placeholder *)

(** C10: for every configuration (with or without WHITEPAGES_KEY), number
    and world, the whitepages call returns a record with available = False
    without touching the world; and replacing the whitepages entry of the
    results by anything leaves the outcome of the merge on the eight
    consolidated fields unchanged. *)
Theorem whitepages_never_contributes :
  (forall E number w,
     exists msg,
       call_whitepages_placeholder E number w =
         (Ok [ ("provider", PyStr "whitepages"); ("available", PyBool false);
               ("error", PyStr msg) ], w)) /\
  (forall number results v,
     canonical_view (merge number (dict_set results "whitepages" v)) =
     canonical_view (merge number results)).
Proof.
  split.
  - intros E number w. unfold call_whitepages_placeholder.
    destruct (negb (env_set (WHITEPAGES_KEY E))); eexists; reflexivity.
  - intros number results v. rewrite !merge_closed.
    rewrite !dict_get_set_other by discriminate.
    destruct (py_or (dict_get results "numverify") (PyDict []))
      as [| | | | | | nv]; try reflexivity.
    destruct (py_or (dict_get results "twilio") (PyDict []))
      as [| | | | | | tw]; try reflexivity.
    destruct (carrier_wellformed tw); reflexivity.
Qed.

(** ** Provider results *)

Lemma result_invariant_not_available (name msg : string) :
  result_invariant name (not_available name msg).
Proof.
  split; [reflexivity |]. left. split; [reflexivity |].
  left. exists msg. reflexivity.
Qed.

Lemma result_invariant_tagged (name : string) (payload : dict) :
  result_invariant name (tagged name payload).
Proof.
  unfold tagged. split.
  - rewrite dict_get_set_other by discriminate. apply dict_get_set_same.
  - right. split; [apply dict_get_set_same |].
    exists payload. split; [reflexivity |].
    rewrite !dict_find_set_other by discriminate. reflexivity.
Qed.

Lemma result_invariant_status (status : Z) (txt : string) :
  status <> 200 -> result_invariant "twilio" (status_record status txt).
Proof.
  intros Hs. split; [reflexivity |]. left. split; [reflexivity |].
  right. split; [reflexivity |]. split; [reflexivity |].
  exists status, txt. repeat split; [exact Hs].
Qed.

Lemma tag_payload_ok (name : string) (r : response) (d : dict) :
  tag_payload name r = Ok d -> exists payload, d = tagged name payload.
Proof.
  unfold tag_payload, tagged.
  destruct (json r) as [data | e]; [| discriminate].
  destruct data; try discriminate.
  cbn [obind py_setitem]. intros H. injection H as <-.
  eexists. reflexivity.
Qed.


Lemma call_twilio_result (E : env) (number : string) (w : world) :
  match call_twilio_lookup E number w with
  | (Ok r, _) => result_invariant "twilio" r
  | (Raise e, w') =>
      w' = w /\ requote_uri E number = Raise e /\
      env_set (TWILIO_SID E) && env_set (TWILIO_AUTH E) = true
  end.
Proof.
  unfold call_twilio_lookup.
  destruct (env_set (TWILIO_SID E) && env_set (TWILIO_AUTH E)).
  2:{ apply result_invariant_not_available. }
  cbn [negb]. unfold try_except, bind, requests_get, lift, ret.
  destruct (requote_uri E number) as [quoted | e].
  2:{ repeat split. }
  destruct (reply (network E _ _)) as [r | e].
  2:{ apply (result_invariant_not_available "twilio"). }
  destruct (status_code r =? 200) eqn:Hs.
  - destruct (tag_payload "twilio" r) as [d | e] eqn:Htag.
    + apply tag_payload_ok in Htag. destruct Htag as [payload ->].
      apply result_invariant_tagged.
    + apply (result_invariant_not_available "twilio").
  - apply result_invariant_status. apply Z.eqb_neq. exact Hs.
Qed.




(** ** The cache *)






(** ** Input validation *)



Section HandlerFacts.

Variable format_response : pyval -> outcome string.
Variable E : env.


End HandlerFacts.


(** * Further properties of the code *)

(** ** The merge: when it raises, and what its fields can hold *)

Lemma merge_raise_cases (number : string) (nv tw wp : dict) (e : exn) :
  merge number (results_of nv tw wp) = Raise e <->
  truthy (dict_get tw "available") = true /\
  truthy (dict_get tw "carrier") = true /\
  isinstance_dict (dict_get tw "carrier") = false /\
  e = mkExn "AttributeError"
            ("'" ++ py_typename (dict_get tw "carrier") ++
             "' object has no attribute 'get'").
Proof.
  rewrite merge_results_of.
  unfold carrier_wellformed, available, twilio_carrier, py_or.
  destruct (truthy (dict_get tw "available")); cbn [negb orb].
  2:{ split; [discriminate | intros [H _]; discriminate H]. }
  destruct (truthy (dict_get tw "carrier")) eqn:Hc.
  2:{ cbn [isinstance_dict]. split; [discriminate | intros (_ & H & _); discriminate H]. }
  destruct (isinstance_dict (dict_get tw "carrier")) eqn:Hd.
  - split; [discriminate | intros (_ & _ & H & _); discriminate H].
  - split.
    + intros H. injection H as <-. repeat split.
    + intros (_ & _ & _ & ->). reflexivity.
Qed.

(** The merge of a fan-out result raises exactly when the Twilio result is
    available and its carrier entry is truthy but not an object; what it
    raises is then the AttributeError of calling [get] on that value. *)
Theorem merge_raises_iff (number : string) (nv tw wp : dict) (e : exn) :
  merge number (results_of nv tw wp) = Raise e <->
  truthy (dict_get tw "available") = true /\
  truthy (dict_get tw "carrier") = true /\
  isinstance_dict (dict_get tw "carrier") = false /\
  e = mkExn "AttributeError"
            ("'" ++ py_typename (dict_get tw "carrier") ++
             "' object has no attribute 'get'").
Proof. exact (merge_raise_cases number nv tw wp e). Qed.

(** In every record the merge returns, [valid] is Numverify's [valid] entry
    as it is (None when the entry is missing) when Numverify is available,
    and None otherwise; the Twilio result has no influence on it. *)
Theorem valid_from_numverify_only (number : string) (nv tw wp m : dict) :
  merge number (results_of nv tw wp) = Ok m ->
  dict_find m "valid" =
  Some (if truthy (dict_get nv "available") then dict_get nv "valid" else PyNone).
Proof.
  intros Hm. apply merge_ok_inv in Hm. destruct Hm as [_ ->].
  rewrite consolidated_get by (simpl; tauto).
  unfold consolidated_field, offers_numverify, available.
  cbn [String.eqb Ascii.eqb Bool.eqb].
  destruct (truthy (dict_get nv "available")); reflexivity.
Qed.

Lemma valid_from_numverify_only_witness :
  dict_find
    (consolidated "+919812345678"
       (results_of scenario_whitepages valid_twilio scenario_whitepages)
       scenario_whitepages valid_twilio) "valid" =
  Some (if truthy (dict_get scenario_whitepages "available")
        then dict_get scenario_whitepages "valid" else PyNone).
Proof.
  apply (valid_from_numverify_only "+919812345678" scenario_whitepages
           valid_twilio scenario_whitepages).
  reflexivity.
Defined.

Lemma py_or_none_or_truthy (a b : pyval) :
  b = PyNone \/ truthy b = true ->
  py_or a b = PyNone \/ truthy (py_or a b) = true.
Proof.
  intros Hb. unfold py_or. destruct (truthy a) eqn:Ha; [right; exact Ha | exact Hb].
Qed.

(** In every record the merge returns, each consolidated field other than
    [valid] holds None or a truthy value: an empty string, zero, False or an
    empty container offered by a provider never gets into the record. *)
Theorem consolidated_none_or_truthy (number : string) (nv tw wp m : dict) (f : string) :
  merge number (results_of nv tw wp) = Ok m ->
  In f canonical_fields -> f <> "valid" ->
  dict_get m f = PyNone \/ truthy (dict_get m f) = true.
Proof.
  intros Hm Hf Hv. apply merge_ok_inv in Hm. destruct Hm as [_ ->].
  unfold dict_get. rewrite consolidated_get by exact Hf.
  unfold consolidated_field. apply String.eqb_neq in Hv. rewrite Hv.
  unfold last_nonempty. cbn [fold_left].
  apply py_or_none_or_truthy, py_or_none_or_truthy. left. reflexivity.
Qed.

Lemma consolidated_none_or_truthy_witness :
  dict_get
    (consolidated "+1" (results_of [ ("available", PyBool true); ("carrier", PyStr "") ]
                                   [] [])
                  [ ("available", PyBool true); ("carrier", PyStr "") ] [])
    "carrier" = PyNone \/
  truthy (dict_get
    (consolidated "+1" (results_of [ ("available", PyBool true); ("carrier", PyStr "") ]
                                   [] [])
                  [ ("available", PyBool true); ("carrier", PyStr "") ] [])
    "carrier") = true.
Proof.
  apply (consolidated_none_or_truthy "+1"
           [ ("available", PyBool true); ("carrier", PyStr "") ] [] []).
  - reflexivity.
  - simpl. tauto.
  - discriminate.
Defined.

Lemma consolidated_field_numverify_only (nv tw : dict) (f : string) :
  In f [ "valid"; "country_name"; "country_code"; "location" ] ->
  consolidated_field nv tw f =
  if String.eqb f "valid" then offers_numverify nv "valid"
  else py_or (offers_numverify nv f) PyNone.
Proof.
  intros Hf. cbn [In] in Hf.
  destruct Hf as [<- | [<- | [<- | [<- | []]]]]; [reflexivity | | |];
    unfold consolidated_field, last_nonempty;
    cbn [String.eqb Ascii.eqb Bool.eqb fold_left];
    rewrite offers_twilio_none by reflexivity; reflexivity.
Qed.

(** The fields valid, country_name, country_code and location listen to
    Numverify only: two merges that return and were given the same Numverify
    result agree on them, whatever the Twilio and whitepages results. *)
Theorem numverify_fields_ignore_twilio
        (number : string) (nv tw tw' wp wp' m m' : dict) (f : string) :
  merge number (results_of nv tw wp) = Ok m ->
  merge number (results_of nv tw' wp') = Ok m' ->
  In f [ "valid"; "country_name"; "country_code"; "location" ] ->
  dict_get m' f = dict_get m f.
Proof.
  intros Hm Hm' Hf.
  apply merge_ok_inv in Hm. destruct Hm as [_ ->].
  apply merge_ok_inv in Hm'. destruct Hm' as [_ ->].
  assert (Hc : In f canonical_fields).
  { cbn [In] in Hf. destruct Hf as [<- | [<- | [<- | [<- | []]]]]; simpl; tauto. }
  unfold dict_get. rewrite !consolidated_get by exact Hc.
  rewrite !consolidated_field_numverify_only by exact Hf. reflexivity.
Qed.

Lemma numverify_fields_ignore_twilio_witness :
  dict_get (consolidated "+1" (results_of invalid_numverify valid_twilio [])
                         invalid_numverify valid_twilio) "valid" =
  dict_get (consolidated "+1" (results_of invalid_numverify scenario_twilio [])
                         invalid_numverify scenario_twilio) "valid".
Proof.
  apply (numverify_fields_ignore_twilio "+1" invalid_numverify scenario_twilio
           valid_twilio [] []).
  - reflexivity.
  - reflexivity.
  - simpl. tauto.
Defined.

(** caller_name listens to Twilio only: two merges that return and were
    given the same Twilio result agree on it, whatever the Numverify result
    (even one with a caller_name entry of its own). *)
Theorem caller_name_ignores_numverify
        (number : string) (nv nv' tw wp wp' m m' : dict) :
  merge number (results_of nv tw wp) = Ok m ->
  merge number (results_of nv' tw wp') = Ok m' ->
  dict_get m' "caller_name" = dict_get m "caller_name".
Proof.
  intros Hm Hm'.
  apply merge_ok_inv in Hm. destruct Hm as [_ ->].
  apply merge_ok_inv in Hm'. destruct Hm' as [_ ->].
  unfold dict_get. rewrite !consolidated_get by (simpl; tauto).
  unfold consolidated_field, last_nonempty, offers_numverify.
  cbn [String.eqb Ascii.eqb Bool.eqb fold_left existsb orb].
  rewrite !andb_false_r. reflexivity.
Qed.

Lemma caller_name_ignores_numverify_witness :
  dict_get (consolidated "+1"
              (results_of [ ("available", PyBool true); ("caller_name", PyStr "N") ]
                          scenario_twilio [])
              [ ("available", PyBool true); ("caller_name", PyStr "N") ]
              scenario_twilio) "caller_name" =
  dict_get (consolidated "+1" (results_of scenario_numverify scenario_twilio [])
                         scenario_numverify scenario_twilio) "caller_name".
Proof.
  apply (caller_name_ignores_numverify "+1" scenario_numverify
           [ ("available", PyBool true); ("caller_name", PyStr "N") ]
           scenario_twilio [] []); reflexivity.
Defined.

(** ** The provider wrappers: when a result is available *)

Lemma available_not_available (name msg : string) :
  available (not_available name msg) = false.
Proof. reflexivity. Qed.

Lemma available_tagged (name : string) (payload : dict) :
  available (tagged name payload) = true.
Proof.
  unfold available, tagged. rewrite dict_get_set_same. reflexivity.
Qed.

Lemma tag_payload_cases (name : string) (r : response) :
  (exists payload, json r = Ok (PyDict payload) /\
                   tag_payload name r = Ok (tagged name payload)) \/
  (exists e, tag_payload name r = Raise e /\
             forall payload, json r <> Ok (PyDict payload)).
Proof.
  unfold tag_payload, tagged.
  destruct (json r) as [data | e].
  - destruct data;
      try (right; eexists; split; [reflexivity | discriminate]).
    left. eexists. split; reflexivity.
  - right. eexists. split; [reflexivity | discriminate].
Qed.

(** The Numverify result is available exactly when the key is configured,
    the network produced a response whose status is not a 4xx or 5xx, and
    the body parses to a JSON object; the result is then that object with
    the two tags set. Every other case (no key, transport error, error
    status, unparsable body, a body that is not an object) gives an
    unavailable result. *)
Theorem numverify_available_iff (E : env) (number : string) (w w' : world) (r : dict) :
  call_numverify E number w = (Ok r, w') ->
  (available r = true <->
   env_set (NUMVERIFY_KEY E) = true /\
   exists resp payload,
     reply (network E (length (net_log w))
                    (numverify_request (env_str (NUMVERIFY_KEY E)) number)) = Ok resp /\
     (status_code resp < 400 \/ 600 <= status_code resp) /\
     json resp = Ok (PyDict payload) /\
     r = tagged "numverify" payload).
Proof.
  unfold call_numverify.
  destruct (env_set (NUMVERIFY_KEY E)); cbn [negb].
  2:{ intros H. injection H as <- _. split; [discriminate |].
      intros [H _]. discriminate H. }
  unfold try_except, bind, requests_get, lift, ret.
  destruct (reply (network E _ _)) as [resp | e].
  2:{ intros H. injection H as <- _. split; [discriminate |].
      intros (_ & resp & payload & H & _). discriminate H. }
  unfold raise_for_status.
  destruct ((400 <=? status_code resp) && (status_code resp <? 600)) eqn:Hst.
  { intros H. injection H as <- _. split; [discriminate |].
    intros (_ & resp' & payload & Hr & Hs & _). injection Hr as <-.
    apply andb_true_iff in Hst. destruct Hst as [H1 H2].
    apply Z.leb_le in H1. apply Z.ltb_lt in H2. lia. }
  destruct (tag_payload_cases "numverify" resp)
    as [(payload & Hj & Ht) | (e & Ht & Hj)]; rewrite Ht.
  - intros H. injection H as <- _. split.
    + intros _. split; [reflexivity |]. exists resp, payload.
      repeat split; try assumption.
      apply andb_false_iff in Hst. destruct Hst as [H1 | H2].
      * apply Z.leb_gt in H1. left. exact H1.
      * apply Z.ltb_ge in H2. right. exact H2.
    + intros _. apply available_tagged.
  - intros H. injection H as <- _. split; [discriminate |].
    intros (_ & resp' & payload & Hr & _ & Hj' & _). injection Hr as <-.
    exfalso. exact (Hj payload Hj').
Qed.

Lemma numverify_available_iff_witness :
  available (tagged "numverify"
               [ ("success", PyBool false);
                 ("error", PyDict [ ("code", PyInt 101);
                                    ("type", PyStr "invalid_access_key") ]) ]) = true <->
  env_set (NUMVERIFY_KEY sample_env) = true /\
  exists resp payload,
    reply (network sample_env (length (net_log empty_world))
             (numverify_request (env_str (NUMVERIFY_KEY sample_env)) "+14155552671"))
      = Ok resp /\
    (status_code resp < 400 \/ 600 <= status_code resp) /\
    json resp = Ok (PyDict payload) /\
    tagged "numverify"
      [ ("success", PyBool false);
        ("error", PyDict [ ("code", PyInt 101);
                           ("type", PyStr "invalid_access_key") ]) ]
    = tagged "numverify" payload.
Proof.
  apply (numverify_available_iff sample_env "+14155552671" empty_world
           (snd (call_numverify sample_env "+14155552671" empty_world))).
  reflexivity.
Defined.

Lemma call_twilio_available (E : env) (number : string) (w w' : world) (r : dict) :
  call_twilio_lookup E number w = (Ok r, w') ->
  (available r = true <->
   env_set (TWILIO_SID E) = true /\ env_set (TWILIO_AUTH E) = true /\
   exists quoted resp payload,
     requote_uri E number = Ok quoted /\
     reply (network E (length (net_log w)) (twilio_request E quoted)) = Ok resp /\
     status_code resp = 200 /\
     json resp = Ok (PyDict payload) /\
     r = tagged "twilio" payload).
Proof.
  unfold call_twilio_lookup.
  destruct (env_set (TWILIO_SID E)); cbn [andb negb].
  2:{ intros H. injection H as <- _. split; [discriminate |].
      intros [H _]. discriminate H. }
  destruct (env_set (TWILIO_AUTH E)); cbn [negb].
  2:{ intros H. injection H as <- _. split; [discriminate |].
      intros (_ & H & _). discriminate H. }
  unfold try_except, bind, requests_get, lift, ret.
  destruct (requote_uri E number) as [quoted | e]; [| discriminate].
  destruct (reply (network E _ _)) as [resp | e] eqn:Hreply.
  2:{ intros H. injection H as <- _. split; [discriminate |].
      intros (_ & _ & q & resp & payload & Hq & H & _).
      injection Hq as <-. rewrite Hreply in H. discriminate H. }
  destruct (status_code resp =? 200) eqn:Hst.
  2:{ intros H. injection H as <- _. split; [discriminate |].
      intros (_ & _ & q & resp' & payload & Hq & Hr & Hs & _).
      injection Hq as <-. rewrite Hreply in Hr. injection Hr as <-.
      apply Z.eqb_neq in Hst. contradiction. }
  apply Z.eqb_eq in Hst.
  destruct (tag_payload_cases "twilio" resp)
    as [(payload & Hj & Ht) | (e & Ht & Hj)]; rewrite Ht.
  - intros H. injection H as <- _. split.
    + intros _. split; [reflexivity |]. split; [reflexivity |].
      exists quoted, resp, payload. repeat split; assumption.
    + intros _. apply available_tagged.
  - intros H. injection H as <- _. split; [discriminate |].
    intros (_ & _ & q & resp' & payload & Hq & Hr & _ & Hj' & _).
    injection Hq as <-. rewrite Hreply in Hr. injection Hr as <-.
    exfalso. exact (Hj payload Hj').
Qed.

(** The Twilio result, when the call returns, is available exactly when both
    credentials are configured, the network produced a response with status
    200 and the body parses to a JSON object. Unlike for Numverify, any
    other status (a 204 or a 301 as much as a 404) gives an unavailable
    result. *)
Theorem twilio_available_iff (E : env) (number : string) (w w' : world) (r : dict) :
  call_twilio_lookup E number w = (Ok r, w') ->
  (available r = true <->
   env_set (TWILIO_SID E) = true /\ env_set (TWILIO_AUTH E) = true /\
   exists quoted resp payload,
     requote_uri E number = Ok quoted /\
     reply (network E (length (net_log w)) (twilio_request E quoted)) = Ok resp /\
     status_code resp = 200 /\
     json resp = Ok (PyDict payload) /\
     r = tagged "twilio" payload).
Proof. exact (call_twilio_available E number w w' r). Qed.

Lemma twilio_available_iff_witness :
  available (status_record 404 "not found") = true <->
  env_set (TWILIO_SID sample_env) = true /\ env_set (TWILIO_AUTH sample_env) = true /\
  exists quoted resp payload,
    requote_uri sample_env "+14155552671" = Ok quoted /\
    reply (network sample_env (length (net_log empty_world))
                   (twilio_request sample_env quoted)) = Ok resp /\
    status_code resp = 200 /\
    json resp = Ok (PyDict payload) /\
    status_record 404 "not found" = tagged "twilio" payload.
Proof.
  apply (twilio_available_iff sample_env "+14155552671" empty_world
           (snd (call_twilio_lookup sample_env "+14155552671" empty_world))).
  reflexivity.
Defined.

(** ** Network activity of one aggregation *)

Lemma call_numverify_world (E : env) (number : string) (w : world) :
  snd (call_numverify E number w) =
  if env_set (NUMVERIFY_KEY E)
  then after_request E (numverify_request (env_str (NUMVERIFY_KEY E)) number) w
  else w.
Proof.
  unfold call_numverify, after_request.
  destruct (env_set (NUMVERIFY_KEY E)); cbn [negb]; [| reflexivity].
  unfold try_except, bind, requests_get, lift, ret.
  destruct (reply (network E _ _)) as [resp | e]; [| reflexivity].
  destruct (raise_for_status resp) as [[] | e]; [| reflexivity].
  destruct (tag_payload "numverify" resp); reflexivity.
Qed.

Lemma call_twilio_world (E : env) (number : string) (w : world) :
  snd (call_twilio_lookup E number w) =
  if env_set (TWILIO_SID E) && env_set (TWILIO_AUTH E)
  then match requote_uri E number with
       | Ok quoted => after_request E (twilio_request E quoted) w
       | Raise _ => w
       end
  else w.
Proof.
  unfold call_twilio_lookup, after_request.
  destruct (env_set (TWILIO_SID E) && env_set (TWILIO_AUTH E)); cbn [negb];
    [| reflexivity].
  unfold try_except, bind, requests_get, lift, ret.
  destruct (requote_uri E number) as [quoted | e]; [| reflexivity].
  destruct (reply (network E _ _)) as [resp | e]; [| reflexivity].
  destruct (status_code resp =? 200); [| reflexivity].
  destruct (tag_payload "twilio" resp); reflexivity.
Qed.

Lemma call_whitepages_world (E : env) (number : string) (w : world) :
  snd (call_whitepages_placeholder E number w) = w.
Proof.
  unfold call_whitepages_placeholder.
  destruct (negb (env_set (WHITEPAGES_KEY E))); reflexivity.
Qed.

Lemma isolated_world (name : string) (call : string -> M dict)
      (number : string) (w : world) :
  snd (isolated name call number w) = snd (call number w).
Proof.
  unfold isolated. destruct (call number w) as [[r | e] w']; reflexivity.
Qed.

Lemma aggregate_body_world (nv_call tw_call wp_call : string -> M dict)
      (number : string) (w : world) :
  snd (aggregate_body nv_call tw_call wp_call number w) =
  snd (fan_out nv_call tw_call wp_call number w).
Proof.
  rewrite aggregate_body_closed.
  destruct (fan_out nv_call tw_call wp_call number w) as [[results | e] w'];
    [| reflexivity].
  destruct (merge number results); reflexivity.
Qed.

Lemma body_frame (E : env) (number : string) (w : world) :
  let w' := snd (aggregate_lookups_uncached E number w) in
  net_log w' = (net_log w ++ expected_requests E number)%list /\
  (length (expected_requests E number) <= 2)%nat /\
  cache w' = cache w /\
  outbox w' = outbox w /\
  clock w <= clock w'.
Proof.
  cbv zeta. unfold aggregate_lookups_uncached.
  rewrite aggregate_body_world, fan_out_closed. cbv zeta. cbn [snd].
  rewrite !isolated_world.
  rewrite call_whitepages_world, call_twilio_world, call_numverify_world.
  unfold expected_requests, after_request.
  destruct (env_set (NUMVERIFY_KEY E));
    destruct (env_set (TWILIO_SID E) && env_set (TWILIO_AUTH E));
    try destruct (requote_uri E number) as [quoted | e];
    cbn [net_log cache outbox clock length app];
    rewrite <- ?app_assoc, ?app_nil_r;
    repeat split; try reflexivity; lia.
Qed.

(** One run of the body of [aggregate_lookups] sends exactly the requests of
    the configured providers, in the order Numverify, Twilio - at most two,
    none for a provider without credentials, none for whitepages, and none
    to Twilio when quoting the number fails - whatever the providers answer
    and whether or not the merge then raises. It leaves the cache and the
    chat outbox alone and never moves the clock back. *)
Theorem body_network_activity (E : env) (number : string) (w : world) :
  let w' := snd (aggregate_lookups_uncached E number w) in
  net_log w' = (net_log w ++ expected_requests E number)%list /\
  (length (expected_requests E number) <= 2)%nat /\
  cache w' = cache w /\
  outbox w' = outbox w /\
  clock w <= clock w'.
Proof. exact (body_frame E number w). Qed.


(** ** When the whole lookup fails *)

Lemma tagged_get_other (name : string) (payload : dict) (k : string) :
  k <> "provider" -> k <> "available" ->
  dict_get (tagged name payload) k = dict_get payload k.
Proof.
  intros H1 H2. unfold tagged.
  rewrite !dict_get_set_other by assumption. reflexivity.
Qed.

Lemma call_twilio_success (E : env) (number : string) (w : world)
      (quoted : string) (resp : response) (payload : dict) :
  env_set (TWILIO_SID E) = true -> env_set (TWILIO_AUTH E) = true ->
  requote_uri E number = Ok quoted ->
  reply (network E (length (net_log w)) (twilio_request E quoted)) = Ok resp ->
  status_code resp = 200 ->
  json resp = Ok (PyDict payload) ->
  fst (call_twilio_lookup E number w) = Ok (tagged "twilio" payload).
Proof.
  intros Hsid Hauth Hq Hr Hs Hj.
  unfold call_twilio_lookup. rewrite Hsid, Hauth. cbn [andb negb].
  unfold try_except, bind, requests_get, lift, ret.
  rewrite Hq, Hr. apply Z.eqb_eq in Hs. rewrite Hs.
  unfold tag_payload. rewrite Hj. reflexivity.
Qed.

(** The body of [aggregate_lookups] raises exactly when Twilio is
    configured, the number could be quoted, Twilio answered 200 with a JSON
    object, and that object's carrier entry is truthy without being an
    object; the exception is the AttributeError of [carrier.get]. Nothing
    Numverify or the whitepages placeholder does, and no failure of the
    network, makes the lookup fail. *)
Theorem body_raises_iff (E : env) (number : string) (w : world) (e : exn) :
  fst (aggregate_lookups_uncached E number w) = Raise e <->
  env_set (TWILIO_SID E) = true /\ env_set (TWILIO_AUTH E) = true /\
  exists quoted resp payload,
    requote_uri E number = Ok quoted /\
    reply (network E (length (net_log (snd (call_numverify E number w))))
                   (twilio_request E quoted)) = Ok resp /\
    status_code resp = 200 /\
    json resp = Ok (PyDict payload) /\
    truthy (dict_get payload "carrier") = true /\
    isinstance_dict (dict_get payload "carrier") = false /\
    e = mkExn "AttributeError"
              ("'" ++ py_typename (dict_get payload "carrier") ++
               "' object has no attribute 'get'").
Proof.
  unfold aggregate_lookups_uncached.
  rewrite aggregate_body_closed, fan_out_closed. cbv beta iota zeta.
  rewrite (isolated_world "numverify").
  set (w1 := snd (call_numverify E number w)).
  set (r1 := fst (isolated "numverify" (call_numverify E) number w)).
  set (r3 := fst (isolated "whitepages" _ number _)).
  set (w3 := snd (isolated "whitepages" _ number _)).
  set (r2 := fst (isolated "twilio" (call_twilio_lookup E) number w1)).
  assert (Hfst :
            fst (match merge number (results_of r1 r2 r3) with
                 | Ok merged => (Ok (bundle merged (results_of r1 r2 r3)), w3)
                 | Raise e0 => (Raise e0, w3)
                 end) = Raise e <->
            merge number (results_of r1 r2 r3) = Raise e).
  { destruct (merge number (results_of r1 r2 r3)); cbn [fst].
    - split; discriminate.
    - split; intros H; injection H as <-; reflexivity. }
  rewrite Hfst, merge_raise_cases. clear Hfst.
  subst r2. unfold isolated.
  pose proof (call_twilio_result E number w1) as Hres.
  destruct (call_twilio_lookup E number w1) as [[r | e'] w2] eqn:Hcall;
    cbn [fst].
  - pose proof (call_twilio_available E number w1 w2 r Hcall) as Hav.
    unfold available in Hav. split.
    + intros (Ha & Hc & Hd & He).
      destruct (proj1 Hav Ha)
        as (Hsid & Hauth & q & resp & payload & Hq & Hr & Hs & Hj & ->).
      rewrite (tagged_get_other "twilio" payload "carrier") in Hc, Hd, He
        by discriminate.
      split; [exact Hsid |]. split; [exact Hauth |].
      exists q, resp, payload. repeat split; assumption.
    + intros (Hsid & Hauth & q & resp & payload & Hq & Hr & Hs & Hj & Hc & Hd & He).
      pose proof (call_twilio_success E number w1 q resp payload
                    Hsid Hauth Hq Hr Hs Hj) as Hok.
      rewrite Hcall in Hok. cbn [fst] in Hok.
      assert (Hr2 : r = tagged "twilio" payload) by congruence.
      rewrite Hr2.
      rewrite (tagged_get_other "twilio" payload "carrier") by discriminate.
      split; [apply available_tagged |]. repeat split; assumption.
  - destruct Hres as (_ & Hq' & _). split.
    + intros (Ha & _). discriminate Ha.
    + intros (_ & _ & q & _ & _ & Hq & _). rewrite Hq in Hq'. discriminate Hq'.
Qed.

(** ** The decorated function: requests, capacity, and what the cache holds *)

Lemma drop_stale_length (links : list link) (k : string) (now : Z) :
  (length (TTLCache_drop_stale links k now) <= length links)%nat.
Proof.
  induction links as [| [[k' v] e] links IH]; simpl; [lia |].
  destruct (String.eqb k k'); [destruct (now <? e); simpl; lia | simpl; lia].
Qed.

Lemma expire_length (links : list link) (now : Z) :
  (length (TTLCache_expire links now) <= length links)%nat.
Proof.
  induction links as [| [[k v] e] links IH]; simpl; [lia |].
  destruct (now <? e); simpl; lia.
Qed.

Lemma remove_length (links : list link) (k : string) :
  (length (TTLCache_remove links k) <= length links)%nat /\
  (TTLCache_contains links k = true ->
   (length (TTLCache_remove links k) < length links)%nat).
Proof.
  induction links as [| [[k' v] e] links [IH1 IH2]]; simpl.
  - split; [lia | discriminate].
  - destruct (String.eqb k k'); simpl.
    + split; [lia | intros _; lia].
    + split; [lia | intros H; specialize (IH2 H); lia].
Qed.

Lemma evict_length (maxsize : Z) (links : list link) :
  1 <= maxsize ->
  Z.of_nat (length (TTLCache_evict maxsize links)) + 1 <= maxsize.
Proof.
  intros Hmax. induction links as [| l links IH]; [simpl; lia |].
  cbn [TTLCache_evict].
  destruct (Z.of_nat (length (l :: links)) + 1 >? maxsize) eqn:Hgt; [exact IH |].
  rewrite Z.gtb_ltb in Hgt. apply Z.ltb_ge in Hgt. exact Hgt.
Qed.

Lemma setitem_length (ttl : Z) (links : list link) (k : string) (v : pyval) (now : Z) :
  Z.of_nat (length links) <= lookup_cache_maxsize ->
  Z.of_nat (length (snd (TTLCache_setitem lookup_cache_maxsize ttl links k v now)))
  <= lookup_cache_maxsize.
Proof.
  intros Hlen. unfold TTLCache_setitem.
  change (1 >? lookup_cache_maxsize) with false. cbv iota. cbn [snd].
  rewrite length_app. cbn [length].
  pose proof (expire_length links now) as Hexp.
  destruct (TTLCache_contains (TTLCache_expire links now) k) eqn:Hc.
  - destruct (remove_length (TTLCache_expire links now) k) as [_ Hlt].
    specialize (Hlt Hc). lia.
  - pose proof (evict_length lookup_cache_maxsize (TTLCache_expire links now)) as Hev.
    destruct (remove_length
                (TTLCache_evict lookup_cache_maxsize (TTLCache_expire links now)) k)
      as [Hle _].
    assert (1 <= lookup_cache_maxsize) by (unfold lookup_cache_maxsize; lia).
    specialize (Hev H). lia.
Qed.

(** With the cache modelled after cachetools' TTLCache: a call of the
    decorated [aggregate_lookups] never lets the cache grow beyond the
    10000 entries [lookup_cache] is created with. *)
Theorem cache_capacity (E : env) (number : string) (w : world) :
  Z.of_nat (length (cache w)) <= lookup_cache_maxsize ->
  Z.of_nat (length (cache (snd (aggregate_lookups E number w))))
  <= lookup_cache_maxsize.
Proof.
  intros Hlen. unfold aggregate_lookups, cached.
  destruct (TTLCache_getitem (cache w) number (clock w)); [exact Hlen |].
  cbv zeta.
  pose proof (body_frame E number
                (set_cache (TTLCache_drop_stale (cache w) number (clock w)) w))
    as (_ & _ & Hcache & _).
  cbv zeta in Hcache. cbn [set_cache cache] in Hcache.
  pose proof (drop_stale_length (cache w) number (clock w)) as Hdrop.
  destruct (aggregate_lookups_uncached E number _) as [[v | e] w'];
    cbn [snd] in *.
  - cbn [set_cache cache]. apply setitem_length. rewrite Hcache. lia.
  - rewrite Hcache. lia.
Qed.

Lemma cache_capacity_witness :
  Z.of_nat (length (cache (snd (aggregate_lookups sample_env "+14155552671" empty_world))))
  <= lookup_cache_maxsize.
Proof.
  apply (cache_capacity sample_env "+14155552671" empty_world).
  vm_compute. discriminate.
Defined.

Lemma decorated_frame (E : env) (number : string) (w : world) :
  let res := aggregate_lookups E number w in
  net_log (snd res) =
    (net_log w ++
     match TTLCache_getitem (cache w) number (clock w) with
     | Some _ => []
     | None => expected_requests E number
     end)%list /\
  outbox (snd res) = outbox w /\
  clock w <= clock (snd res) /\
  (forall e, fst res = Raise e ->
             cache (snd res) = TTLCache_drop_stale (cache w) number (clock w)).
Proof.
  cbv zeta. unfold aggregate_lookups, cached.
  destruct (TTLCache_getitem (cache w) number (clock w)).
  { cbn [fst snd]. rewrite app_nil_r.
    repeat split; [lia | discriminate]. }
  cbv zeta.
  pose proof (body_frame E number
                (set_cache (TTLCache_drop_stale (cache w) number (clock w)) w))
    as (Hlog & _ & Hcache & Hout & Hclock).
  cbv zeta in Hlog, Hcache, Hout, Hclock.
  cbn [set_cache cache net_log outbox clock] in Hlog, Hcache, Hout, Hclock.
  destruct (aggregate_lookups_uncached E number _) as [[v | e] w'];
    cbn [fst snd] in *.
  - cbn [set_cache net_log outbox clock].
    repeat split; [exact Hlog | exact Hout | exact Hclock | discriminate].
  - repeat split; [exact Hlog | exact Hout | exact Hclock |].
    intros _ _. exact Hcache.
Qed.

(** With the cache modelled after cachetools' TTLCache: a call of the
    decorated [aggregate_lookups] sends no request at all when the key has a
    live cache entry, and otherwise exactly the requests of one fan-out;
    when it raises, nothing is stored (the cache is what the read left). *)
Theorem decorated_network_activity (E : env) (number : string) (w : world) :
  let res := aggregate_lookups E number w in
  net_log (snd res) =
    (net_log w ++
     match TTLCache_getitem (cache w) number (clock w) with
     | Some _ => []
     | None => expected_requests E number
     end)%list /\
  outbox (snd res) = outbox w /\
  clock w <= clock (snd res) /\
  (forall e, fst res = Raise e ->
             cache (snd res) = TTLCache_drop_stale (cache w) number (clock w)).
Proof. exact (decorated_frame E number w). Qed.

Lemma getitem_bundle_for (links : list link) (k : string) (now : Z) (v : pyval) :
  cache_wf links -> TTLCache_getitem links k now = Some v -> bundle_for k v.
Proof.
  unfold cache_wf. induction links as [| [[k' v'] e] links IH]; simpl;
    [discriminate |].
  intros Hwf. inversion Hwf as [| ? ? Hhead Htail]; subst.
  destruct (String.eqb k k') eqn:Hk.
  - apply String.eqb_eq in Hk. subst k'.
    destruct (now <? e); [| discriminate].
    intros H. injection H as <-. exact Hhead.
  - apply IH. exact Htail.
Qed.

Lemma drop_stale_wf (links : list link) (k : string) (now : Z) :
  cache_wf links -> cache_wf (TTLCache_drop_stale links k now).
Proof.
  unfold cache_wf. induction links as [| [[k' v'] e] links IH]; simpl;
    [intros H; exact H |].
  intros Hwf. inversion Hwf as [| ? ? Hhead Htail]; subst.
  destruct (String.eqb k k').
  - destruct (now <? e); [exact Hwf | exact Htail].
  - constructor; [exact Hhead | apply IH; exact Htail].
Qed.

Lemma expire_wf (links : list link) (now : Z) :
  cache_wf links -> cache_wf (TTLCache_expire links now).
Proof.
  unfold cache_wf. induction links as [| [[k v] e] links IH]; simpl;
    [intros H; exact H |].
  intros Hwf. inversion Hwf as [| ? ? Hhead Htail]; subst.
  destruct (now <? e); [exact Hwf | apply IH; exact Htail].
Qed.

Lemma evict_wf (maxsize : Z) (links : list link) :
  cache_wf links -> cache_wf (TTLCache_evict maxsize links).
Proof.
  unfold cache_wf. induction links as [| l links IH]; [intros H; exact H |].
  intros Hwf. inversion Hwf as [| ? ? Hhead Htail]; subst.
  cbn [TTLCache_evict].
  destruct (Z.of_nat (length (l :: links)) + 1 >? maxsize);
    [apply IH; exact Htail | exact Hwf].
Qed.

Lemma remove_wf (links : list link) (k : string) :
  cache_wf links -> cache_wf (TTLCache_remove links k).
Proof.
  unfold cache_wf. induction links as [| [[k' v] e] links IH]; simpl;
    [intros H; exact H |].
  intros Hwf. inversion Hwf as [| ? ? Hhead Htail]; subst.
  destruct (String.eqb k k'); [apply IH; exact Htail |].
  constructor; [exact Hhead | apply IH; exact Htail].
Qed.

Lemma setitem_wf (maxsize ttl : Z) (links : list link) (k : string) (v : pyval) (now : Z) :
  cache_wf links -> bundle_for k v ->
  cache_wf (snd (TTLCache_setitem maxsize ttl links k v now)).
Proof.
  intros Hwf Hv. unfold TTLCache_setitem.
  pose proof (expire_wf links now Hwf) as Hexp.
  destruct (1 >? maxsize); [exact Hexp |]. cbn [snd].
  unfold cache_wf. apply Forall_app. split.
  - apply remove_wf.
    destruct (TTLCache_contains (TTLCache_expire links now) k);
      [exact Hexp | apply evict_wf; exact Hexp].
  - constructor; [exact Hv | constructor].
Qed.

Lemma body_bundle_for (nv_call tw_call wp_call : string -> M dict)
      (number : string) (w w' : world) (b : pyval) :
  aggregate_body nv_call tw_call wp_call number w = (Ok b, w') ->
  bundle_for number b.
Proof.
  rewrite aggregate_body_closed, fan_out_closed. cbv beta iota zeta.
  rewrite merge_results_of.
  destruct (carrier_wellformed _); [| discriminate].
  intros H. injection H as <- _.
  eexists. eexists. repeat split; reflexivity.
Qed.

(** With the cache modelled after cachetools' TTLCache: if every cached
    value is a bundle made for the key it is stored under (as in the empty
    cache the program starts with), this is still so after any call of the
    decorated [aggregate_lookups], and the bundle the call returns - fresh or
    served from the cache - has the ten merged keys, its queried_number is
    the requested number, and its raw mapping has the three provider keys. *)
Theorem cached_bundles_match_key (E : env) (number : string) (w : world) :
  cache_wf (cache w) ->
  cache_wf (cache (snd (aggregate_lookups E number w))) /\
  forall b, fst (aggregate_lookups E number w) = Ok b ->
    exists merged results,
      b = PyDict [ ("merged", PyDict merged); ("raw", PyDict results) ] /\
      dict_keys merged =
        [ "queried_number"; "providers"; "international_format"; "valid";
          "country_name"; "country_code"; "location"; "carrier";
          "line_type"; "caller_name" ] /\
      dict_find merged "queried_number" = Some (PyStr number) /\
      dict_find merged "providers" = Some (PyDict results) /\
      dict_keys results = [ "numverify"; "twilio"; "whitepages" ].
Proof.
  intros Hwf.
  enough (H : cache_wf (cache (snd (aggregate_lookups E number w))) /\
              forall b, fst (aggregate_lookups E number w) = Ok b ->
                        bundle_for number b) by exact H.
  unfold aggregate_lookups, cached.
  destruct (TTLCache_getitem (cache w) number (clock w)) as [v |] eqn:Hget.
  { cbn [fst snd]. split; [exact Hwf |].
    intros b H. injection H as <-.
    exact (getitem_bundle_for _ _ _ _ Hwf Hget). }
  cbv zeta.
  pose proof (drop_stale_wf (cache w) number (clock w) Hwf) as Hwf0.
  pose proof (body_frame E number
                (set_cache (TTLCache_drop_stale (cache w) number (clock w)) w))
    as (_ & _ & Hcache & _).
  cbv zeta in Hcache. cbn [set_cache cache] in Hcache.
  destruct (aggregate_lookups_uncached E number _) as [[v | e] w'] eqn:Hbody;
    cbn [fst snd] in *.
  - apply body_bundle_for in Hbody.
    split.
    + cbn [set_cache cache]. apply setitem_wf; [rewrite Hcache; exact Hwf0 | exact Hbody].
    + intros b H. injection H as <-. exact Hbody.
  - split; [rewrite Hcache; exact Hwf0 | discriminate].
Qed.

Lemma cached_bundles_match_key_witness :
  cache_wf (cache (snd (aggregate_lookups sample_env "+14155552671" empty_world))) /\
  forall b, fst (aggregate_lookups sample_env "+14155552671" empty_world) = Ok b ->
    exists merged results,
      b = PyDict [ ("merged", PyDict merged); ("raw", PyDict results) ] /\
      dict_keys merged =
        [ "queried_number"; "providers"; "international_format"; "valid";
          "country_name"; "country_code"; "location"; "carrier";
          "line_type"; "caller_name" ] /\
      dict_find merged "queried_number" = Some (PyStr "+14155552671") /\
      dict_find merged "providers" = Some (PyDict results) /\
      dict_keys results = [ "numverify"; "twilio"; "whitepages" ].
Proof.
  apply (cached_bundles_match_key sample_env "+14155552671" empty_world).
  constructor.
Defined.

(** ** The text rendering *)

Section RenderingFacts.

Variable py_repr : pyval -> string.

Lemma provider_line_dict (p : string) (r : dict) :
  provider_line p (PyDict r) =
  let? tail := (if truthy (summary_error r)
                then str_concat "- " (summary_error r) else Ok "") in
  Ok (" - " ++ p ++ ": " ++
      (if truthy (dict_get r "available") then "OK" else "NO") ++ " " ++ tail).
Proof.
  unfold provider_line, summary_error, py_or. cbn [py_get obind].
  destruct (truthy (dict_get r "error")); reflexivity.
Qed.

Lemma summary_error_falsy_is_str (r : dict) :
  truthy (summary_error r) = false -> is_str (summary_error r) = true.
Proof.
  unfold summary_error, py_or.
  destruct (truthy (dict_get r "error")) eqn:H1; [congruence |].
  destruct (truthy (dict_get r "text")) eqn:H2; [congruence | reflexivity].
Qed.

Lemma provider_line_outcome (p : string) (r : dict) :
  match provider_line p (PyDict r) with
  | Ok _ => is_str (summary_error r) = true
  | Raise e =>
      truthy (summary_error r) = true /\ is_str (summary_error r) = false /\
      e = mkExn "TypeError"
                ("can only concatenate str (not " ++ dquote ++
                 py_typename (summary_error r) ++ dquote ++ ") to str")
  end.
Proof.
  rewrite provider_line_dict.
  destruct (truthy (summary_error r)) eqn:Ht.
  - destruct (summary_error r); cbn [str_concat obind is_str];
      try (repeat split; reflexivity).
  - cbn [obind]. apply summary_error_falsy_is_str. exact Ht.
Qed.

Lemma provider_lines_outcome (results : dict) :
  Forall (fun pr => isinstance_dict (snd pr) = true) results ->
  match provider_lines results with
  | Ok lines =>
      length lines = length results /\
      forall p r, In (p, PyDict r) results -> is_str (summary_error r) = true
  | Raise e =>
      exists p r,
        In (p, PyDict r) results /\
        truthy (summary_error r) = true /\ is_str (summary_error r) = false /\
        e = mkExn "TypeError"
                  ("can only concatenate str (not " ++ dquote ++
                   py_typename (summary_error r) ++ dquote ++ ") to str")
  end.
Proof.
  induction results as [| [p v] results IH]; intros Hd.
  - cbn. split; [reflexivity | intros p r []].
  - inversion Hd as [| ? ? Hv Hrest]; subst. cbn [snd] in Hv.
    destruct v as [| | | | | | r]; try discriminate Hv.
    cbn [provider_lines].
    pose proof (provider_line_outcome p r) as Hline.
    destruct (provider_line p (PyDict r)) as [line | e]; cbn [obind].
    + specialize (IH Hrest).
      destruct (provider_lines results) as [lines | e]; cbn [obind].
      * destruct IH as [Hlen Hall]. split; [cbn [length]; congruence |].
        intros p' r' [Heq | Hin]; [injection Heq as <- <-; exact Hline |].
        exact (Hall p' r' Hin).
      * destruct IH as (p' & r' & Hin & Hrest').
        exists p', r'. split; [right; exact Hin | exact Hrest'].
    + exists p, r. split; [left; reflexivity | exact Hline].
Qed.

Lemma format_response_bundle (merged results : dict) :
  match provider_lines results with
  | Ok _ => exists s, format_response py_repr (bundle merged results) = Ok s
  | Raise e => format_response py_repr (bundle merged results) = Raise e
  end.
Proof.
  unfold format_response, bundle, py_item, dict_item.
  cbn [dict_find String.eqb Ascii.eqb Bool.eqb obind py_get py_items].
  destruct (provider_lines results); cbn [obind];
    [eexists; reflexivity | reflexivity].
Qed.

(** On a bundle whose raw entries are dicts (as the fan-out builds them) the
    rendering raises exactly when some provider entry has a truthy
    [error] - or, failing that, a truthy [text] - that is not a string, such
    as the error object of a provider's JSON reply; the exception is then
    the TypeError of ['- ' + err]. The merged record never makes it raise,
    whatever it holds. *)
Theorem format_response_raises_iff (merged results : dict) :
  Forall (fun pr => isinstance_dict (snd pr) = true) results ->
  ((exists e, format_response py_repr (bundle merged results) = Raise e) <->
   (exists p r, In (p, PyDict r) results /\
                truthy (summary_error r) = true /\
                is_str (summary_error r) = false)) /\
  (forall e, format_response py_repr (bundle merged results) = Raise e ->
             exn_class e = "TypeError").
Proof.
  intros Hd.
  pose proof (provider_lines_outcome results Hd) as Hlines.
  pose proof (format_response_bundle merged results) as Hfmt.
  destruct (provider_lines results) as [lines | e0].
  - destruct Hfmt as [s Hs]. destruct Hlines as [_ Hall].
    split; [| intros e He; rewrite Hs in He; discriminate He].
    split.
    + intros [e He]. rewrite Hs in He. discriminate He.
    + intros (p & r & Hin & _ & Hns). rewrite (Hall p r Hin) in Hns.
      discriminate Hns.
  - destruct Hlines as (p & r & Hin & Ht & Hns & ->).
    split.
    + split; [intros _; exists p, r; auto | intros _; eexists; exact Hfmt].
    + intros e He. rewrite Hfmt in He. injection He as <-. reflexivity.
Qed.

End RenderingFacts.

Lemma format_response_raises_iff_witness :
  ((exists e,
      format_response (fun _ => "")
        (bundle [] (results_of (tagged "numverify" [ ("error", PyDict [ ("code", PyInt 101) ]) ])
                               [] [])) = Raise e) <->
   (exists p r,
      In (p, PyDict r)
         (results_of (tagged "numverify" [ ("error", PyDict [ ("code", PyInt 101) ]) ])
                     [] []) /\
      truthy (summary_error r) = true /\ is_str (summary_error r) = false)) /\
  (forall e,
     format_response (fun _ => "")
       (bundle [] (results_of (tagged "numverify" [ ("error", PyDict [ ("code", PyInt 101) ]) ])
                              [] [])) = Raise e ->
     exn_class e = "TypeError").
Proof.
  apply (format_response_raises_iff (fun _ => "") []
           (results_of (tagged "numverify" [ ("error", PyDict [ ("code", PyInt 101) ]) ])
                       [] [])).
  repeat constructor.
Defined.

(** ** The [/num] handler end to end *)


Section HandlerMore.

Variable format_response : pyval -> outcome string.
Variable E : env.

(** The text the handler settles on for an accepted number, given the
    outcome of the lookup. *)
Lemma handler_accepted_closed (arg : string) (rest : list string) (w : world) :
  accepted (strip arg) = true ->
  let res := aggregate_lookups E (strip arg) (snd (send_action "typing" w)) in
  let resp_text :=
    match fst res with
    | Ok agg => match format_response agg with
                | Ok s => s
                | Raise e => error_text e
                end
    | Raise e => error_text e
    end in
  num_handler format_response E (arg :: rest) w =
  (Ok tt,
   mkWorld (clock (snd res)) (net_log (snd res)) (cache (snd res))
           (outbox (snd res) ++
            (if 4000 <? Z.of_nat (String.length resp_text)
             then [ ReplyText "Result too long — sending as a text file.";
                    ReplyText (take 4000 resp_text) ]
             else [ ReplyText resp_text ]))).
Proof.
  intros Hacc. cbv zeta. unfold num_handler. rewrite Hacc. cbn [negb].
  unfold bind at 1. cbn [send_action snd].
  unfold bind at 1. unfold try_except, bind, lift, ret, error_text.
  destruct (aggregate_lookups E (strip arg) _) as [[agg | e] w2]; cbn [fst snd].
  - destruct (format_response agg) as [s | e].
    + destruct (4000 <? Z.of_nat (String.length s)); unfold reply_text;
        cbn [clock net_log cache outbox]; [rewrite <- app_assoc |]; reflexivity.
    + destruct (4000 <? Z.of_nat (String.length _)); unfold reply_text;
        cbn [clock net_log cache outbox]; [rewrite <- app_assoc |]; reflexivity.
  - destruct (4000 <? Z.of_nat (String.length _)); unfold reply_text;
      cbn [clock net_log cache outbox]; [rewrite <- app_assoc |]; reflexivity.
Qed.



(** When the lookup raises, or returns a bundle on which the rendering
    raises, the user is told so: after the typing action the handler replies
    "Error during lookup: " followed by the exception's text (given that
    this text fits in 4000 characters). *)
Theorem handler_reports_errors (arg : string) (rest : list string) (w : world) (e : exn) :
  accepted (strip arg) = true ->
  fst (aggregate_lookups E (strip arg) (snd (send_action "typing" w))) = Raise e \/
  (exists agg,
     fst (aggregate_lookups E (strip arg) (snd (send_action "typing" w))) = Ok agg /\
     format_response agg = Raise e) ->
  (String.length (error_text e) <= 4000)%nat ->
  outbox (snd (num_handler format_response E (arg :: rest) w)) =
  (outbox w ++ [ SendAction "typing"; ReplyText (error_text e) ])%list.
Proof.
  intros Hacc Hfail Hlen.
  rewrite (handler_accepted_closed arg rest w Hacc). cbv zeta. cbn [snd outbox].
  pose proof (decorated_frame E (strip arg)
                (snd (send_action "typing" w))) as (_ & Hout & _).
  cbv zeta in Hout. rewrite Hout. cbn [send_action snd outbox].
  assert (Htext :
            match fst (aggregate_lookups E (strip arg) (snd (send_action "typing" w))) with
            | Ok agg => match format_response agg with
                        | Ok s => s
                        | Raise e0 => error_text e0
                        end
            | Raise e0 => error_text e0
            end = error_text e).
  { destruct Hfail as [Hr | (agg & Ha & Hf)].
    - rewrite Hr. reflexivity.
    - rewrite Ha, Hf. reflexivity. }
  cbn [send_action snd] in Htext. rewrite Htext.
  assert (Hfit : (4000 <? Z.of_nat (String.length (error_text e))) = false)
    by (apply Z.ltb_ge; lia).
  rewrite Hfit. rewrite <- app_assoc. reflexivity.
Qed.

End HandlerMore.

(** The exchange of [sample_env]: Numverify answers 200 with an error
    object, the rendering trips over it, and the user reads the TypeError. *)
Lemma handler_reports_errors_witness :
  outbox (snd (num_handler (format_response (fun _ => "")) sample_env
                           [ "+14155552671" ] empty_world)) =
  [ SendAction "typing";
    ReplyText ("Error during lookup: can only concatenate str (not " ++ dquote ++
               "dict" ++ dquote ++ ") to str") ].
Proof.
  apply (handler_reports_errors (format_response (fun _ => "")) sample_env
           "+14155552671" [] empty_world
           (mkExn "TypeError"
                  ("can only concatenate str (not " ++ dquote ++ "dict" ++ dquote ++
                   ") to str"))).
  - reflexivity.
  - right. eexists. split; vm_compute; reflexivity.
  - apply Nat.leb_le. vm_compute. reflexivity.
Defined.

(** ** The handler's test of the number *)


